(** * ros_openpose: the OpenPose producer/consumer adapter node

    A shallow embedding of [src/rosOpenpose.cpp]: the input worker
    [WUserInput::workProducer], the output worker
    [WUserOutput::workConsumer] and the start-up sequence of [main].

    Conventions.
    - C++ [int] values are mathematical integers ([Z]); the index
      arithmetic of the consumer stays below the volume of the keypoint
      array, so no signed overflow is involved.
    - [float] is kept abstract: the workers only copy float values.
    - A C++ exception is a value of [exception]; the handlers of the two
      workers name [const std::exception&], which is the class every
      library called here derives its exceptions from.
    - Statements of a [try] block are sequenced in a state-and-exception
      monad; the state survives a [throw], as member data does. *)

From Stdlib Require Import ZArith QArith Lia.
From stdpp Require Import base list strings gmap.

Open Scope string_scope.
Open Scope list_scope.
Open Scope Z_scope.

(** ** Exceptions and the worker monad *)

(** [std::exception], characterised by its [what()] message. *)
Record exception := StdException { what : string }.

Inductive outcome (A : Type) : Type :=
| Normal (a : A)
| Raise (e : exception).
Arguments Normal {A} a.
Arguments Raise {A} e.

(** A computation over a state [S]: it ends normally with a value or
    raises, and yields the state reached in both cases. *)
Definition M (S A : Type) : Type := S -> outcome A * S.

Definition ret {S A} (a : A) : M S A := fun s => (Normal a, s).

Definition bind {S A B} (m : M S A) (k : A -> M S B) : M S B :=
  fun s => match m s with
           | (Normal a, s') => k a s'
           | (Raise e, s') => (Raise e, s')
           end.

Definition throw {S A} (e : exception) : M S A := fun s => (Raise e, s).

Definition lift {S A} (o : outcome A) : M S A := fun s => (o, s).

Definition gets {S A} (f : S -> A) : M S A := fun s => (Normal (f s), s).

Definition modify {S} (f : S -> S) : M S unit := fun s => (Normal tt, f s).

(** [try { m } catch (const std::exception& e) { handler e }] *)
Definition try_catch {S A} (m : M S A) (handler : exception -> M S A) : M S A :=
  fun s => match m s with
           | (Normal a, s') => (Normal a, s')
           | (Raise e, s') => handler e s'
           end.

Declare Scope worker_scope.
Delimit Scope worker_scope with W.
Notation "'let!' x ':=' m 'in' k" := (bind m (fun x => k))
  (at level 10, x name, m at level 100, k at level 200) : worker_scope.
Notation "m '>>' k" := (bind m (fun _ => k))
  (at level 65, right associativity) : worker_scope.

(** [for (auto i = 0; i < n; i++) body(i)], unrolled over the index list. *)
Fixpoint forM_ {S A} (l : list A) (body : A -> M S unit) : M S unit :=
  match l with
  | [] => ret tt
  | i :: l' => bind (body i) (fun _ => forM_ l' body)
  end.

Definition for_upto {S} (n : Z) (body : Z -> M S unit) : M S unit :=
  forM_ (seqZ 0 n) body.

(** ** op::Array<float>: the keypoint container of OpenPose *)

Section Keypoints.
Variable float : Type.

(** [mSize] is the vector of dimensions, [pData] the row-major buffer. *)
Record Array := mkArray { mSize : list Z; pData : list float }.

Definition Array_empty : Array := mkArray [] [].

(** [Array::getSize(index)]: the dimension when [index] names one;
    otherwise 0 for an empty array and 1 for any other. *)
Definition getSize (a : Array) (index : Z) : Z :=
  match (if 0 <=? index then mSize a !! Z.to_nat index else None) with
  | Some n => n
  | None => if bool_decide (mSize a = []) then 0 else 1
  end.

Definition index_out_of_bounds : exception :=
  StdException "Index out of bounds".

(** [Array::operator[](int)] through the checked accessor [at]. *)
Definition Array_at (a : Array) (index : Z) : outcome float :=
  match (if 0 <=? index then pData a !! Z.to_nat index else None) with
  | Some v => Normal v
  | None => Raise index_out_of_bounds
  end.

(** [Array::getIndex(indexes)]: walks the indexes from the last to the
    first, accumulating the stride of each dimension. *)
Definition getIndex (a : Array) (indexes : list Z) : Z :=
  fst (foldr (fun '(ix, sz) '(index, accumulated) =>
                (index + accumulated * ix, accumulated * sz))
             (0, 1) (zip indexes (mSize a))).

Definition too_many_indexes : exception :=
  StdException "Number of indexes must be lower or equal than the number of dimensions".

(** [Array::operator[](std::vector<int>)]: the "easy version" the
    consumer keeps in a comment, [poseKeypoints[{person, bodyPart, c}]]. *)
Definition Array_at_indexes (a : Array) (indexes : list Z) : outcome float :=
  if bool_decide (length indexes <= length (mSize a))%nat
  then Array_at a (getIndex a indexes)
  else Raise too_many_indexes.

(** The flat index the consumer computes for channel [c] of a keypoint. *)
Definition baseIndex (a : Array) (person bodyPart : Z) : Z :=
  getSize a 2 * (person * getSize a 1 + bodyPart).

End Keypoints.

Arguments mkArray {float} mSize pData.
Arguments mSize {float} a.
Arguments pData {float} a.
Arguments Array_empty {float}.
Arguments getSize {float} a index.
Arguments Array_at {float} a index.
Arguments getIndex {float} a indexes.
Arguments Array_at_indexes {float} a indexes.
Arguments baseIndex {float} a person bodyPart.

(** ** std::vector, cv::Mat, op::Datum *)

Definition vector_at {A} (v : list A) (i : Z) : outcome A :=
  match (if 0 <=? i then v !! Z.to_nat i else None) with
  | Some a => Normal a
  | None => Raise (StdException "vector::_M_range_check")
  end.

(** [v.resize(n)] with an [int] argument: a negative [n] converts to a
    [size_t] above [max_size()] and raises [std::length_error]. *)
Definition length_error : exception := StdException "vector::_M_default_append".

Definition vector_resize {A} (n : Z) (dflt : A) (v : list A) : outcome (list A) :=
  if n <? 0 then Raise length_error
  else Normal (resize (Z.to_nat n) dflt v).

(** [v[i].member = ...]: in-place update of the element at [i]. The loops
    of the consumer keep [i] below [v.size()]. *)
Definition vector_update {A} (i : Z) (f : A -> A) (v : list A) : list A :=
  alter f (Z.to_nat i) v.

Record Mat := mkMat { rows : Z; cols : Z; data : list Z }.

Definition Mat_empty (m : Mat) : bool :=
  bool_decide (data m = []) || (rows m * cols m =? 0).

Record Time := mkTime { sec : Z; nsec : Z }.

(** ** What the translation unit takes from outside *)

(** [float] with its value-initialised element, the [__FILE__] string, and
    the class [ros_openpose::CameraReader]: [cameraReader.hpp] is not among
    the sources, so the three member functions the workers call are taken
    as an interface over the reader's state. [copyLatestDepthImage] yields
    the reader's next state; [compute3DPoint] yields the three values it
    stores in its output array. *)
Class Collaborators := {
  float : Type;
  fzero : float;
  FILE : string;
  CameraReader : Type;
  getColorFrame : CameraReader -> outcome Mat;
  copyLatestDepthImage : CameraReader -> outcome CameraReader;
  compute3DPoint : CameraReader -> float -> float -> outcome (float * float * float)
}.

Section Node.
Context {C : Collaborators}.

(** The fields of [op::Datum] the workers touch. *)
Record Datum := mkDatum { cvInputData : Mat; poseKeypoints : Array float }.

Definition Datum_new : Datum := mkDatum (mkMat 0 0 []) Array_empty.

Definition set_cvInputData (m : Mat) (d : Datum) : Datum :=
  mkDatum m (poseKeypoints d).

(** [std::shared_ptr<std::vector<std::shared_ptr<op::Datum>>>]: [None] is
    the null pointer. An element is modelled by the datum it owns. *)
Definition sPtrVecSPtrDatum : Type := option (list Datum).

(** *** Messages *)

(** Modelled from the spec: the message types [Pixel], [BodyPart],
    [Person] and [Frame] (their [.msg] declarations are not among the
    sources). A frame is an ordered list of persons, a person an ordered
    list of body parts, a body part a pixel, a score and a 3D point; the
    field names are the ones [workConsumer] assigns. *)
Record Pixel := mkPixel { pixel_x : float; pixel_y : float }.
Record Point32 := mkPoint32 { point_x : float; point_y : float; point_z : float }.
Record BodyPart := mkBodyPart { score : float; pixel : Pixel; point : Point32 }.
Record Person := mkPerson { bodyParts : list BodyPart }.
Record Header := mkHeader { seq : Z; stamp : Time; frame_id : string }.
Record Frame := mkFrame { header : Header; persons : list Person }.

Definition BodyPart_new : BodyPart :=
  mkBodyPart fzero (mkPixel fzero fzero) (mkPoint32 fzero fzero fzero).
Definition Person_new : Person := mkPerson [].
Definition Frame_new : Frame := mkFrame (mkHeader 0 (mkTime 0 0) "") [].

Definition set_frame_id (id : string) (f : Frame) : Frame :=
  mkFrame (mkHeader (seq (header f)) (stamp (header f)) id) (persons f).
Definition set_stamp (t : Time) (f : Frame) : Frame :=
  mkFrame (mkHeader (seq (header f)) t (frame_id (header f))) (persons f).
Definition set_persons (ps : list Person) (f : Frame) : Frame :=
  mkFrame (header f) ps.

Definition set_pixel_x (v : float) (b : BodyPart) : BodyPart :=
  mkBodyPart (score b) (mkPixel v (pixel_y (pixel b))) (point b).
Definition set_pixel_y (v : float) (b : BodyPart) : BodyPart :=
  mkBodyPart (score b) (mkPixel (pixel_x (pixel b)) v) (point b).
Definition set_score (v : float) (b : BodyPart) : BodyPart :=
  mkBodyPart v (pixel b) (point b).
Definition set_point_x (v : float) (b : BodyPart) : BodyPart :=
  mkBodyPart (score b) (pixel b)
    (mkPoint32 v (point_y (point b)) (point_z (point b))).
Definition set_point_y (v : float) (b : BodyPart) : BodyPart :=
  mkBodyPart (score b) (pixel b)
    (mkPoint32 (point_x (point b)) v (point_z (point b))).
Definition set_point_z (v : float) (b : BodyPart) : BodyPart :=
  mkBodyPart (score b) (pixel b)
    (mkPoint32 (point_x (point b)) (point_y (point b)) v).

(** *** The process around a worker *)

Inductive Severity := Info | Warn | Error | Fatal.
Inductive LogArg := ArgString (s : string) | ArgInt (n : Z).

(** What a worker invocation does to the outside: it sleeps, runs a
    rosconsole statement ([throttle] is the period in seconds of a
    [_THROTTLE] statement) or publishes a frame. *)
Inductive Event :=
| Slept (ms : Z)
| Logged (sev : Severity) (throttle : option Z) (fmt : string) (args : list LogArg)
| Published (f : Frame).

(** The objects shared with the rest of the process: the camera reader
    behind [mSPtrCameraReader], the ROS clock and the output so far. *)
Record World := mkWorld { camera : CameraReader; clock : Time; events : list Event }.

(** A worker object: the members its class declares ([this]), the
    [mIsRunning] flag of [op::Worker], and the world it points into. *)
Record State (Obj : Type) :=
  mkState { this : Obj; mIsRunning : bool; world : World }.
Arguments mkState {Obj} this mIsRunning world.
Arguments this {Obj} s.
Arguments mIsRunning {Obj} s.
Arguments world {Obj} s.

Section Primitives.
Context {Obj : Type}.

(** [op::Worker::stop()] *)
Definition stop : M (State Obj) unit :=
  modify (fun s => mkState (this s) false (world s)).

Definition emit (ev : Event) : M (State Obj) unit :=
  modify (fun s =>
    mkState (this s) (mIsRunning s)
      (mkWorld (camera (world s)) (clock (world s)) (events (world s) ++ [ev]))).

Definition sleep_for (ms : Z) : M (State Obj) unit := emit (Slept ms).

Definition ROS_WARN_THROTTLE (period : Z) (msg : string) : M (State Obj) unit :=
  emit (Logged Warn (Some period) msg []).

Definition ROS_ERROR (fmt : string) (args : list LogArg) : M (State Obj) unit :=
  emit (Logged Error None fmt args).

Definition Time_now : M (State Obj) Time := gets (fun s => clock (world s)).

Definition call_getColorFrame : M (State Obj) Mat :=
  fun s => (getColorFrame (camera (world s)), s).

Definition call_copyLatestDepthImage : M (State Obj) unit :=
  fun s => match copyLatestDepthImage (camera (world s)) with
           | Normal c' =>
               (Normal tt,
                mkState (this s) (mIsRunning s)
                  (mkWorld c' (clock (world s)) (events (world s))))
           | Raise e => (Raise e, s)
           end.

Definition call_compute3DPoint (x y : float) : M (State Obj) (float * float * float) :=
  fun s => (compute3DPoint (camera (world s)) x y, s).

(** The statement both handlers share. *)
Definition log_exception (e : exception) (line : Z) (function : string)
  : M (State Obj) unit :=
  ROS_ERROR "Error %s at line number %d on function %s in file %s"
    [ArgString (what e); ArgInt line; ArgString function; ArgString FILE].
End Primitives.

(** *** WUserInput *)

(** [WUserInput] declares one member, the pointer to the shared reader. *)
Record WUserInput : Type := mkWUserInput {}.

Definition workProducer_try : M (State WUserInput) sPtrVecSPtrDatum :=
  (sleep_for 1 >>
   let! colorImage := call_getColorFrame in
   if negb (Mat_empty colorImage) then
     let datumsPtr := [Datum_new] in
     let datumsPtr := vector_update 0 (set_cvInputData colorImage) datumsPtr in
     ret (Some datumsPtr)
   else
     ROS_WARN_THROTTLE 10 "Empty color image frame detected. Ignoring..." >>
     ret None)%W.

Definition workProducer_catch (e : exception) : M (State WUserInput) sPtrVecSPtrDatum :=
  (stop >>
   log_exception e 73 "workProducer" >>
   ret None)%W.

Definition workProducer : M (State WUserInput) sPtrVecSPtrDatum :=
  try_catch workProducer_try workProducer_catch.

(** *** WUserOutput *)

Record WUserOutput := mkWUserOutput { mFrame : Frame }.

(** The constructor: [mFrame.header.frame_id = frameId]. *)
Definition WUserOutput_new (frameId : string) : WUserOutput :=
  mkWUserOutput (set_frame_id frameId Frame_new).

Definition modify_mFrame (f : Frame -> Frame) : M (State WUserOutput) unit :=
  modify (fun s => mkState (mkWUserOutput (f (mFrame (this s)))) (mIsRunning s) (world s)).

Definition modify_persons (f : list Person -> list Person) : M (State WUserOutput) unit :=
  modify_mFrame (fun fr => set_persons (f (persons fr)) fr).

(** [mFrame.persons.resize(n)] *)
Definition resize_persons (n : Z) : M (State WUserOutput) unit :=
  (let! ps := gets (fun s => persons (mFrame (this s))) in
   let! ps' := lift (vector_resize n Person_new ps) in
   modify_persons (fun _ => ps'))%W.

(** [mFrame.persons[person].bodyParts.resize(n)] *)
Definition resize_bodyParts (person n : Z) : M (State WUserOutput) unit :=
  (let! ps := gets (fun s => persons (mFrame (this s))) in
   let! bps := lift (vector_resize n BodyPart_new
                       (default [] (bodyParts <$> ps !! Z.to_nat person))) in
   modify_persons (vector_update person (fun _ => mkPerson bps)))%W.

(** [mFrame.persons[person].bodyParts[bodyPart].<field> = v] *)
Definition assign_bodyPart (person bodyPart : Z) (f : BodyPart -> BodyPart)
  : M (State WUserOutput) unit :=
  modify_persons
    (vector_update person
       (fun p => mkPerson (vector_update bodyPart f (bodyParts p)))).

Definition publish_mFrame : M (State WUserOutput) unit :=
  (let! fr := gets (fun s => mFrame (this s)) in emit (Published fr))%W.

Definition workConsumer_bodyPart (poseKeypoints : Array float)
    (bodyPartCount person bodyPart : Z) : M (State WUserOutput) unit :=
  (let baseIndex := getSize poseKeypoints 2 * (person * bodyPartCount + bodyPart) in
   let! x := lift (Array_at poseKeypoints baseIndex) in
   let! y := lift (Array_at poseKeypoints (baseIndex + 1)) in
   let! score := lift (Array_at poseKeypoints (baseIndex + 2)) in
   let! point3D := call_compute3DPoint x y in
   assign_bodyPart person bodyPart (set_pixel_x x) >>
   assign_bodyPart person bodyPart (set_pixel_y y) >>
   assign_bodyPart person bodyPart (set_score score) >>
   assign_bodyPart person bodyPart (set_point_x (point3D.1.1)) >>
   assign_bodyPart person bodyPart (set_point_y (point3D.1.2)) >>
   assign_bodyPart person bodyPart (set_point_z (point3D.2)))%W.

Definition workConsumer_person (poseKeypoints : Array float)
    (bodyPartCount person : Z) : M (State WUserOutput) unit :=
  (resize_bodyParts person bodyPartCount >>
   for_upto bodyPartCount (workConsumer_bodyPart poseKeypoints bodyPartCount person))%W.

Definition workConsumer_try (datumsPtr : sPtrVecSPtrDatum) : M (State WUserOutput) unit :=
  match datumsPtr with
  | Some datums =>
      if negb (bool_decide (datums = [])) then
        (let! datum0 := lift (vector_at datums 0) in
         let poseKeypoints := poseKeypoints datum0 in
         let! now := Time_now in
         modify_mFrame (set_stamp now) >>
         modify_persons (fun _ => []) >>
         call_copyLatestDepthImage >>
         let personCount := getSize poseKeypoints 0 in
         let bodyPartCount := getSize poseKeypoints 1 in
         resize_persons personCount >>
         for_upto personCount (workConsumer_person poseKeypoints bodyPartCount) >>
         publish_mFrame)%W
      else ret tt
  | None => ret tt
  end.

Definition workConsumer_catch (e : exception) : M (State WUserOutput) unit :=
  (stop >> log_exception e 164 "workConsumer")%W.

Definition workConsumer (datumsPtr : sPtrVecSPtrDatum) : M (State WUserOutput) unit :=
  try_catch (workConsumer_try datumsPtr) workConsumer_catch.

End Node.

Arguments mkState {C Obj} this mIsRunning world.
Arguments this {C Obj} s.
Arguments mIsRunning {C Obj} s.
Arguments world {C Obj} s.

(** ** The frame a successful invocation is expected to publish *)

Fixpoint mapM_outcome {A B} (f : A -> outcome B) (l : list A) : outcome (list B) :=
  match l with
  | [] => Normal []
  | a :: l' =>
      match f a with
      | Normal b =>
          match mapM_outcome f l' with
          | Normal bs => Normal (b :: bs)
          | Raise e => Raise e
          end
      | Raise e => Raise e
      end
  end.

Section Expected.
Context {C : Collaborators}.

(** The body part of keypoint ([person], [bodyPart]): the three values
    at its flat indices and the point the reader computes for its pixel. *)
Definition keypoint_bodyPart (cam : CameraReader) (kp : Array float)
    (person bodyPart : Z) : outcome BodyPart :=
  match Array_at kp (baseIndex kp person bodyPart) with
  | Normal x =>
      match Array_at kp (baseIndex kp person bodyPart + 1) with
      | Normal y =>
          match Array_at kp (baseIndex kp person bodyPart + 2) with
          | Normal sc =>
              match compute3DPoint cam x y with
              | Normal pt =>
                  Normal (mkBodyPart sc (mkPixel x y) (mkPoint32 pt.1.1 pt.1.2 pt.2))
              | Raise e => Raise e
              end
          | Raise e => Raise e
          end
      | Raise e => Raise e
      end
  | Raise e => Raise e
  end.

(** A negative count fails the [resize] that precedes each loop. *)
Definition keypoint_person (cam : CameraReader) (kp : Array float)
    (person : Z) : outcome Person :=
  if getSize kp 1 <? 0 then Raise length_error
  else
    match mapM_outcome (keypoint_bodyPart cam kp person) (seqZ 0 (getSize kp 1)) with
    | Normal bps => Normal (mkPerson bps)
    | Raise e => Raise e
    end.

Definition keypoint_persons (cam : CameraReader) (kp : Array float)
  : outcome (list Person) :=
  if getSize kp 0 <? 0 then Raise length_error
  else mapM_outcome (keypoint_person cam kp) (seqZ 0 (getSize kp 0)).

(** *** Observations on an invocation *)

(** The events an invocation [m] adds when started in [s]. *)
Definition output_of {Obj A} (m : M (State Obj) A) (s : State Obj) : list Event :=
  drop (length (events (world s))) (events (world (m s).2)).

Definition published (evs : list Event) : list Frame :=
  omap (fun ev => match ev with Published f => Some f | _ => None end) evs.

(** The frame of a consumer once the stamp is set and the persons cleared. *)
Definition restamped (s : State WUserOutput) : Frame :=
  set_persons [] (set_stamp (clock (world s)) (mFrame (this s))).

(** The statement the handler of the consumer logs for [e]. *)
Definition consumer_error (e : exception) : Event :=
  Logged Error None "Error %s at line number %d on function %s in file %s"
    [ArgString (what e); ArgInt 164; ArgString "workConsumer"; ArgString FILE].

Definition producer_error (e : exception) : Event :=
  Logged Error None "Error %s at line number %d on function %s in file %s"
    [ArgString (what e); ArgInt 73; ArgString "workProducer"; ArgString FILE].

Definition empty_frame_warning : Event :=
  Logged Warn (Some 10) "Empty color image frame detected. Ignoring..." [].

Definition add_events (new : list Event) {Obj} (s : State Obj) : State Obj :=
  mkState (this s) (mIsRunning s)
    (mkWorld (camera (world s)) (clock (world s)) (events (world s) ++ new)).

(** What one consumer invocation on a non-empty vector adds to the output. *)
Definition consumer_events (datum0 : Datum) (s : State WUserOutput) : list Event :=
  match copyLatestDepthImage (camera (world s)) with
  | Raise e => [consumer_error e]
  | Normal cam' =>
      match keypoint_persons cam' (poseKeypoints datum0) with
      | Normal ps => [Published (set_persons ps (restamped s))]
      | Raise e => [consumer_error e]
      end
  end.

(** What the consumer thread maintains from one delivery to the next. *)
Definition carries_frame_id (frameId : string) (s : State WUserOutput) : Prop :=
  frame_id (header (mFrame (this s))) = frameId /\
  Forall (fun f => frame_id (header f) = frameId) (published (events (world s))).

(** *** The worker loop of OpenPose around the two workers *)

(** [op::Worker::checkAndWork] of OpenPose, the caller of the two workers
    (library code): a worker whose [mIsRunning] is false is not invoked. *)
Definition checkAndWork_consumer (datumsPtr : sPtrVecSPtrDatum)
  : M (State WUserOutput) bool :=
  fun s => if mIsRunning s
           then bind (workConsumer datumsPtr) (fun _ => gets mIsRunning) s
           else (Normal false, s).

Definition checkAndWork_producer : M (State WUserInput) (sPtrVecSPtrDatum * bool) :=
  fun s => if mIsRunning s
           then bind workProducer
                  (fun d => gets (fun s' => (d, mIsRunning s'))) s
           else (Normal (None, false), s).

(** One delivery to the consumer: the datums handed over, and the reader
    and clock as the other threads of the process have left them. *)
Record Delivery := mkDelivery {
  delivered : sPtrVecSPtrDatum;
  camera_then : CameraReader;
  clock_then : Time
}.

(** The consumer thread: successive deliveries to one [WUserOutput]. *)
Fixpoint consume (ds : list Delivery) (s : State WUserOutput) : State WUserOutput :=
  match ds with
  | [] => s
  | d :: ds' =>
      let s0 := mkState (this s) (mIsRunning s)
                  (mkWorld (camera_then d) (clock_then d) (events (world s))) in
      consume ds' (checkAndWork_consumer (delivered d) s0).2
  end.

(** The state of a freshly constructed and started [WUserOutput]. *)
Definition WUserOutput_start (frameId : string) (cam : CameraReader) (t : Time)
  : State WUserOutput :=
  mkState (WUserOutput_new frameId) true (mkWorld cam t []).

End Expected.

(** ** main *)

Module Main.

(** The calls [main] makes into ROS, gflags, OpenPose and the C library. *)
Inductive Call :=
| ros_init (name : string)
| NodeHandle (ns : string)
| getParam (key : string)
| ROS_FATAL (msg : string)
| ROS_INFO (msg : string)
| ROS_ERROR (fmt : string) (args : list (string + Z))
| set_FLAGS_model_folder (dir : string)
| ParseCommandLineFlags
| new_CameraReader (colorTopic depthTopic camInfoTopic : string)
| advertise (topic : string) (queueSize : Z)
| new_Wrapper
| Wrapper_configure (frameId : string)
| Wrapper_start
| ros_spin
| Wrapper_stop.

(** How the process leaves [main]: through [exit], by [return], or by an
    exception that no handler of [main] catches. *)
Inductive Termination :=
| exit (status : Z)
| returns (status : Z)
| uncaught (e : exception).

(** [nh.getParam(key, value)] leaves [value], an empty string so far,
    untouched when the parameter is not set. *)
Definition getParam_string (params : gmap string string) (key : string) : string :=
  default "" (params !! key).

Definition call (raises : Call -> option exception) (c : Call) : M (list Call) unit :=
  fun trace => match raises c with
               | Some e => (Raise e, trace ++ [c])
               | None => (Normal tt, trace ++ [c])
               end.

Section Main.
Variable FILE : string.
(** The parameter server, and which of the calls that follow the check of
    the model directory raises. *)
Variable params : gmap string string.
Variable raises : Call -> option exception.

Definition log_error (e : exception) (line : Z) (function : string)
  : M (list Call) unit :=
  modify (fun trace => trace ++
    [ROS_ERROR "Error %s at line number %d on function %s in file %s"
       [inl (what e); inr line; inl function; inl FILE]]).

(** [configureOpenPose]: the flags are marshalled into the wrapper
    (one step here, [Wrapper_configure], which installs the two
    workers); its own handler logs and returns. *)
Definition configureOpenPose (frameId : string) : M (list Call) unit :=
  try_catch (call raises (Wrapper_configure frameId))
    (fun e => log_error e 351 "configureOpenPose").

Definition main_try (frameId : string) : M (list Call) Z :=
  (modify (fun trace => trace ++ [ROS_INFO "Starting ros_openpose..."]) >>
   call raises new_Wrapper >>
   configureOpenPose frameId >>
   call raises Wrapper_start >>
   call raises ros_spin >>
   modify (fun trace => trace ++ [ROS_INFO "Exiting ros_openpose..."]) >>
   call raises Wrapper_stop >>
   ret 0)%W.

Definition main_catch (e : exception) : M (list Call) Z :=
  (log_error e 409 "main" >> ret (-1))%W.

Definition main : list Call * Termination :=
  let trace := [ros_init "ros_openpose_node"; NodeHandle "~"] in
  let openposeModelDir := getParam_string params "openpose_model_dir" in
  let colorTopic := getParam_string params "color_topic" in
  let depthTopic := getParam_string params "depth_topic" in
  let camInfoTopic := getParam_string params "cam_info_topic" in
  let frameId := getParam_string params "frame_id" in
  let pubTopic := getParam_string params "pub_topic" in
  let trace := trace ++
    [getParam "openpose_model_dir"; getParam "color_topic"; getParam "depth_topic";
     getParam "cam_info_topic"; getParam "frame_id"; getParam "pub_topic"] in
  if bool_decide (openposeModelDir = "") then
    (trace ++ [ROS_FATAL "Missing 'openpose_model_dir' info in launch file"],
     exit (-1))
  else
    let trace := trace ++ [set_FLAGS_model_folder openposeModelDir] in
    (* these three calls stand outside the try block *)
    match (call raises ParseCommandLineFlags >>
           call raises (new_CameraReader colorTopic depthTopic camInfoTopic) >>
           call raises (advertise pubTopic 1))%W trace with
    | (Raise e, trace') => (trace', uncaught e)
    | (Normal _, trace') =>
        match try_catch (main_try frameId) main_catch trace' with
        | (Normal status, trace'') => (trace'', returns status)
        | (Raise e, trace'') => (trace'', uncaught e)
        end
    end.
End Main.

(** The calls that build the camera reader, the publisher or the wrapper. *)
Definition constructs (c : Call) : bool :=
  match c with
  | new_CameraReader _ _ _ | advertise _ _ | new_Wrapper => true
  | _ => false
  end.

End Main.

(** ** Camera readers *)

(** A pinhole reader over the rationals. *)
Module Pinhole.

(** Modelled from the spec: the camera intrinsic matrix of
    [ros_openpose::CameraReader] ([cameraReader.hpp] is not among the
    sources): focal lengths and principal point of a pinhole camera. *)
Record Intrinsics := mkIntrinsics { fx : Q; fy : Q; cx : Q; cy : Q }.

(** Modelled from the spec: the state of [ros_openpose::CameraReader], a
    frame-buffering helper that exposes the latest color and depth
    images. A depth image is read at a pixel; [depthImageUsed] is the
    copy [copyLatestDepthImage] takes for the projection. *)
Record Reader := mkReader {
  colorImage : Mat;
  depthImage : Q -> Q -> Q;
  depthImageUsed : Q -> Q -> Q;
  intrinsics : Intrinsics
}.

(** Modelled from the spec: the inverse pinhole projection of a pixel
    and its depth value into a 3D point of the optical frame. *)
Definition deproject (K : Intrinsics) (x y depth : Q) : Q * Q * Q :=
  (((x - cx K) / fx K * depth)%Q, ((y - cy K) / fy K * depth)%Q, depth).

(** The pinhole projection of a 3D point onto the image plane. *)
Definition project (K : Intrinsics) (pt : Q * Q * Q) : Q * Q :=
  ((fx K * pt.1.1 / pt.2 + cx K)%Q, (fy K * pt.1.2 / pt.2 + cy K)%Q).

(** Modelled from the spec: the member functions of
    [ros_openpose::CameraReader] the workers call. *)
Definition Reader_getColorFrame (r : Reader) : outcome Mat :=
  Normal (colorImage r).

Definition Reader_copyLatestDepthImage (r : Reader) : outcome Reader :=
  Normal (mkReader (colorImage r) (depthImage r) (depthImage r) (intrinsics r)).

Definition Reader_compute3DPoint (r : Reader) (x y : Q) : outcome (Q * Q * Q) :=
  Normal (deproject (intrinsics r) x y (depthImageUsed r x y)).

Definition collaborators (file : string) : Collaborators := {|
  float := Q;
  fzero := 0%Q;
  FILE := file;
  CameraReader := Reader;
  getColorFrame := Reader_getColorFrame;
  copyLatestDepthImage := Reader_copyLatestDepthImage;
  compute3DPoint := Reader_compute3DPoint
|}.

End Pinhole.

(** A reader that is either serving frames or out of order, for
    exercising the handlers of the workers. *)
Module Faulty.

Inductive Reader :=
| Serving (color : Mat) (depth : Z)
| OutOfOrder (e : exception).

Definition collaborators (file : string) : Collaborators := {|
  float := Z;
  fzero := 0;
  FILE := file;
  CameraReader := Reader;
  getColorFrame r :=
    match r with Serving color _ => Normal color | OutOfOrder e => Raise e end;
  copyLatestDepthImage r :=
    match r with Serving _ _ => Normal r | OutOfOrder e => Raise e end;
  compute3DPoint r x y :=
    match r with Serving _ depth => Normal (x, y, depth) | OutOfOrder e => Raise e end
|}.

End Faulty.

(** ** The loops of the consumer, seen on the persons list alone *)

Section PersonsView.
Context {C : Collaborators}.

Definition with_persons (ps : list Person) (s : State WUserOutput) : State WUserOutput :=
  mkState (mkWUserOutput (set_persons ps (mFrame (this s)))) (mIsRunning s) (world s).

(** Runs a computation on [mFrame.persons] inside a consumer state. *)
Definition zoom {A} (pm : M (list Person) A) : M (State WUserOutput) A :=
  fun s => let r := pm (persons (mFrame (this s))) in (r.1, with_persons r.2 s).

Definition put_bodyPart (person bodyPart : Z) (bp : BodyPart) : list Person -> list Person :=
  vector_update person
    (fun p => mkPerson (vector_update bodyPart (fun _ => bp) (bodyParts p))).

Definition persons_bodyPart (cam : CameraReader) (kp : Array float)
    (person bodyPart : Z) : M (list Person) unit :=
  bind (lift (keypoint_bodyPart cam kp person bodyPart))
       (fun bp => modify (put_bodyPart person bodyPart bp)).

Definition persons_resize_bodyParts (person n : Z) : M (list Person) unit :=
  (let! ps := gets id in
   let! bps := lift (vector_resize n BodyPart_new
                       (default [] (bodyParts <$> ps !! Z.to_nat person))) in
   modify (vector_update person (fun _ => mkPerson bps)))%W.

Definition persons_person (cam : CameraReader) (kp : Array float)
    (person : Z) : M (list Person) unit :=
  (persons_resize_bodyParts person (getSize kp 1) >>
   for_upto (getSize kp 1) (persons_bodyPart cam kp person))%W.

Definition persons_resize (n : Z) : M (list Person) unit :=
  (let! ps := gets id in
   let! ps' := lift (vector_resize n Person_new ps) in
   modify (fun _ => ps'))%W.

Definition persons_loops (cam : CameraReader) (kp : Array float) : M (list Person) unit :=
  (persons_resize (getSize kp 0) >>
   for_upto (getSize kp 0) (persons_person cam kp))%W.

End PersonsView.

(** ** Sample inputs *)

Module Samples.

Definition PC : Collaborators := Pinhole.collaborators "rosOpenpose.cpp".
#[local] Existing Instance PC.

Definition K : Pinhole.Intrinsics := Pinhole.mkIntrinsics 2 2 1 1.
Definition color : Mat := mkMat 1 1 [7].
Definition no_image : Mat := mkMat 0 0 [].

(** The depth image just received reads 4 everywhere; the copy left by
    an earlier invocation reads 0. *)
Definition reader : Pinhole.Reader :=
  Pinhole.mkReader color (fun _ _ => 4%Q) (fun _ _ => 0%Q) K.
Definition dark_reader : Pinhole.Reader :=
  Pinhole.mkReader no_image (fun _ _ => 4%Q) (fun _ _ => 0%Q) K.

(** One person with two body parts. *)
Definition keypoints : Array Q :=
  mkArray [1; 2; 3] [3%Q; 5%Q; (1 # 2)%Q; 7%Q; 9%Q; (1 # 4)%Q].
Definition datum : Datum := mkDatum color keypoints.

Definition frameId : string := "camera_color_optical_frame".

Definition consumer : @State PC (@WUserOutput PC) :=
  WUserOutput_start frameId reader (mkTime 10 0).

Definition second_part : @BodyPart PC :=
  mkBodyPart (1 # 4)%Q (mkPixel 7%Q 9%Q) (mkPoint32 (24 # 2)%Q (32 # 2)%Q 4%Q).
Definition person : @Person PC :=
  mkPerson
    [mkBodyPart (1 # 2)%Q (mkPixel 3%Q 5%Q) (mkPoint32 (8 # 2)%Q (16 # 2)%Q 4%Q);
     second_part].
Definition frame : @Frame PC :=
  mkFrame (mkHeader 0 (mkTime 10 0) frameId) [person].


Definition producer : @State PC WUserInput :=
  mkState mkWUserInput true (mkWorld reader (mkTime 10 0) []).
Definition dark_producer : @State PC WUserInput :=
  mkState mkWUserInput true (mkWorld dark_reader (mkTime 10 0) []).

Definition params : gmap string string :=
  <["openpose_model_dir" := "/opt/openpose/models/"]> ∅.

End Samples.

(** Inputs on which the reader raises. *)
Module Faults.

Definition FC : Collaborators := Faulty.collaborators "rosOpenpose.cpp".
#[local] Existing Instance FC.

Definition failure : exception := StdException "resource deadlock avoided".

Definition faulty_datum : Datum := mkDatum Samples.color (mkArray [1; 1; 3] [3; 5; 1]).

Definition broken_producer : @State FC WUserInput :=
  mkState mkWUserInput true (mkWorld (Faulty.OutOfOrder failure) (mkTime 10 0) []).
Definition broken_consumer : @State FC (@WUserOutput FC) :=
  WUserOutput_start Samples.frameId (Faulty.OutOfOrder failure) (mkTime 10 0).

End Faults.

(** ** Keypoint arrays as the pose estimator delivers them *)

(** Three dimensions (persons, body parts, channels), at least the three
    channels x, y and score, and a buffer of exactly their product. *)
Definition is_keypoint_array {float} (kp : Array float) : bool :=
  match mSize kp with
  | [P; B; C] =>
      (0 <=? P) && (0 <=? B) && (3 <=? C) &&
      (Z.of_nat (length (pData kp)) =? P * B * C)
  | _ => false
  end.

(** ** configureOpenPose, step by step *)

Module Configure.

Inductive WorkerType := Input | Output.
Inductive WrapperStruct := Pose | Face | Hand | Extra | OutputFiles | Gui.

(** The calls [configureOpenPose] makes, in the order of the source. A
    flag conversion is named by the flag it converts; the flag values
    themselves are handed on unchanged and decide nothing here. *)
Inductive Step :=
| setPriorityThreshold (level : Z)
| Profiler_setDefaultX
| flagsToPoint (flag example : string)
| flagsToPoseMode
| flagsToPoseModel
| ROS_INFO (msg : string)
| flagsToScaleMode
| flagsToHeatMaps
| flagsToHeatMapScaleMode
| flagsToDetector (flag : string)
| new_WUserInput
| new_WUserOutput (frameId : string)
| setWorker (type : WorkerType) (workerOnNewThread : bool)
| flagsToRenderMode (flag : string) (multipleView : bool)
| stringToDataFormat
| flagsToDisplayMode
| configure (which : WrapperStruct)
| disableMultiThreading
| ROS_ERROR (fmt : string) (args : list (string + Z)).

(** The flags that decide what [configureOpenPose] does. *)
Record Flags := mkFlags {
  FLAGS_logging_level : Z;
  FLAGS_write_keypoint : string;
  FLAGS_disable_multi_thread : bool
}.

(** A rosconsole statement does not raise; any other step may. *)
Definition is_log (st : Step) : bool :=
  match st with
  | ROS_INFO _ | ROS_ERROR _ _ => true
  | _ => false
  end.

Definition raising (raises : Step -> option exception) (st : Step) : option exception :=
  if is_log st then None else raises st.

Definition step (raises : Step -> option exception) (st : Step) : M (list Step) unit :=
  fun trace => match raising raises st with
               | Some e => (Raise e, trace ++ [st])
               | None => (Normal tt, trace ++ [st])
               end.

Section Configure.
Variable FILE : string.
(** The text [op::error] composes from a message and its location. *)
Variable error_text : string -> Z -> string -> string -> string.
Variable flags : Flags.
Variable raises : Step -> option exception.

(** [op::check(condition, message, line, function, file)] *)
Definition check (condition : bool) (message : string) (line : Z)
    (function file : string) : M (list Step) unit :=
  if condition then ret tt
  else throw (StdException (error_text message line function file)).

Definition configureOpenPose_try (frameId : string) : M (list Step) unit :=
  (check ((0 <=? FLAGS_logging_level flags) && (FLAGS_logging_level flags <=? 255))
     "Wrong logging_level value." 189 "configureOpenPose" FILE >>
   step raises (setPriorityThreshold (FLAGS_logging_level flags)) >>
   step raises Profiler_setDefaultX >>
   step raises (flagsToPoint "output_resolution" "-1x-1") >>
   step raises (flagsToPoint "net_resolution" "-1x368") >>
   step raises (flagsToPoint "face_net_resolution" "368x368 (multiples of 16)") >>
   step raises (flagsToPoint "hand_net_resolution" "368x368 (multiples of 16)") >>
   step raises flagsToPoseMode >>
   step raises flagsToPoseModel >>
   (if negb (bool_decide (FLAGS_write_keypoint flags = ""))
    then step raises (ROS_INFO "Flag `write_keypoint` is deprecated and will eventually be removed. Please, use `write_json` instead.")
    else ret tt) >>
   step raises flagsToScaleMode >>
   step raises flagsToHeatMaps >>
   step raises flagsToHeatMapScaleMode >>
   let multipleView := false in
   step raises (flagsToDetector "face_detector") >>
   step raises (flagsToDetector "hand_detector") >>
   step raises new_WUserInput >>
   step raises (new_WUserOutput frameId) >>
   let workerInputOnNewThread := true in
   step raises (setWorker Input workerInputOnNewThread) >>
   let workerOutputOnNewThread := true in
   step raises (setWorker Output workerOutputOnNewThread) >>
   step raises (flagsToRenderMode "render_pose" multipleView) >>
   step raises (configure Pose) >>
   step raises (flagsToRenderMode "face_render" multipleView) >>
   step raises (configure Face) >>
   step raises (flagsToRenderMode "hand_render" multipleView) >>
   step raises (configure Hand) >>
   step raises (configure Extra) >>
   step raises stringToDataFormat >>
   step raises (configure OutputFiles) >>
   step raises flagsToDisplayMode >>
   step raises (configure Gui) >>
   (if FLAGS_disable_multi_thread flags
    then step raises disableMultiThreading
    else ret tt))%W.

Definition configureOpenPose_catch (e : exception) : M (list Step) unit :=
  step raises
    (ROS_ERROR "Error %s at line number %d on function %s in file %s"
       [inl (what e); inr 351; inl "configureOpenPose"; inl FILE]).

Definition configureOpenPose (frameId : string) : M (list Step) unit :=
  try_catch (configureOpenPose_try frameId) configureOpenPose_catch.

(** The statement the handler logs for [e]. *)
Definition configure_error (e : exception) : Step :=
  ROS_ERROR "Error %s at line number %d on function %s in file %s"
    [inl (what e); inr 351; inl "configureOpenPose"; inl FILE].

(** The steps of a configuration in which nothing goes wrong. *)
Definition plan (frameId : string) : list Step :=
  [setPriorityThreshold (FLAGS_logging_level flags);
   Profiler_setDefaultX;
   flagsToPoint "output_resolution" "-1x-1";
   flagsToPoint "net_resolution" "-1x368";
   flagsToPoint "face_net_resolution" "368x368 (multiples of 16)";
   flagsToPoint "hand_net_resolution" "368x368 (multiples of 16)";
   flagsToPoseMode;
   flagsToPoseModel] ++
  (if bool_decide (FLAGS_write_keypoint flags = "") then []
   else [ROS_INFO "Flag `write_keypoint` is deprecated and will eventually be removed. Please, use `write_json` instead."]) ++
  [flagsToScaleMode;
   flagsToHeatMaps;
   flagsToHeatMapScaleMode;
   flagsToDetector "face_detector";
   flagsToDetector "hand_detector";
   new_WUserInput;
   new_WUserOutput frameId;
   setWorker Input true;
   setWorker Output true;
   flagsToRenderMode "render_pose" false;
   configure Pose;
   flagsToRenderMode "face_render" false;
   configure Face;
   flagsToRenderMode "hand_render" false;
   configure Hand;
   configure Extra;
   stringToDataFormat;
   configure OutputFiles;
   flagsToDisplayMode;
   configure Gui] ++
  (if FLAGS_disable_multi_thread flags then [disableMultiThreading] else []).

Definition logging_level_ok : bool :=
  (0 <=? FLAGS_logging_level flags) && (FLAGS_logging_level flags <=? 255).

End Configure.

(** Runs the steps of [l] up to the first that raises, then [k]. *)
Fixpoint run_then (raises : Step -> option exception) (l : list Step)
    (k : M (list Step) unit) : M (list Step) unit :=
  match l with
  | [] => k
  | st :: l' => bind (step raises st) (fun _ => run_then raises l' k)
  end.

End Configure.

(** ** Further sample inputs *)

Module MoreSamples.

#[local] Existing Instance Samples.PC.

(** No person detected: the estimator hands over an empty array. *)
Definition empty_datum : Datum := mkDatum Samples.color Array_empty.

(** The sample keypoints next to another image. *)
Definition other_datum : Datum := mkDatum Samples.no_image Samples.keypoints.

(** The sample reader once it has taken its depth copy. *)
Definition fresh_reader : CameraReader :=
  Pinhole.mkReader Samples.color (fun _ _ => 4%Q) (fun _ _ => 4%Q) Samples.K.

Definition flags : Configure.Flags := Configure.mkFlags 3 "" true.
Definition wrong_flags : Configure.Flags := Configure.mkFlags 300 "" false.

Definition error_text (message : string) (line : Z) (function file : string) : string :=
  message.

Definition failure : exception := StdException "Invalid render mode".

(** The wrapper refuses the pose configuration. *)
Definition pose_refused (st : Configure.Step) : option exception :=
  match st with
  | Configure.configure Configure.Pose => Some failure
  | _ => None
  end.

(** [configureOpenPose] fails as a whole. *)
Definition configuration_fails (c : Main.Call) : option exception :=
  match c with
  | Main.Wrapper_configure _ => Some failure
  | _ => None
  end.

(** Starting the wrapper raises. *)
Definition start_fails (c : Main.Call) : option exception :=
  match c with
  | Main.Wrapper_start => Some failure
  | _ => None
  end.

End MoreSamples.

(** * Properties *)

(** ** Keypoint indexing *)

Lemma getIndex_three {float} (a : Array float) (p b c : Z) :
  (3 <= length (mSize a))%nat ->
  getIndex a [p; b; c] = baseIndex a p b + c.
Proof.
  intros Hlen. unfold getIndex, baseIndex, getSize.
  destruct a as [[|P [|B [|C sizes]]] data]; simpl in *; try lia.
Qed.

Lemma Array_at_indexes_three {float} (a : Array float) (p b c : Z) :
  (3 <= length (mSize a))%nat ->
  Array_at_indexes a [p; b; c] = Array_at a (baseIndex a p b + c).
Proof.
  intros Hlen. unfold Array_at_indexes.
  rewrite bool_decide_eq_true_2 by (simpl; lia).
  by rewrite getIndex_three.
Qed.

(** C10. For a keypoint array (three dimensions: person, body part,
    channel), the flat indices [getSize(2)*(p*bodyPartCount+b)], [+1] and
    [+2] read by the consumer return what the multi-index accesses
    [{p, b, 0}], [{p, b, 1}] and [{p, b, 2}] return. *)
Theorem flat_index_equals_multi_index {float} (a : Array float) (p b : Z) :
  (3 <= length (mSize a))%nat ->
  Array_at a (baseIndex a p b) = Array_at_indexes a [p; b; 0] /\
  Array_at a (baseIndex a p b + 1) = Array_at_indexes a [p; b; 1] /\
  Array_at a (baseIndex a p b + 2) = Array_at_indexes a [p; b; 2].
Proof.
  intros Hlen. rewrite !Array_at_indexes_three by assumption.
  rewrite Z.add_0_r. repeat split.
Qed.

(** ** Results of [mapM_outcome] *)

Lemma mapM_outcome_length {A B} (f : A -> outcome B) (l : list A) (ys : list B) :
  mapM_outcome f l = Normal ys -> length ys = length l.
Proof.
  revert ys. induction l as [|a l IH]; intros ys H; simpl in H.
  - by inversion H.
  - destruct (f a); [|discriminate].
    destruct (mapM_outcome f l) as [bs|]; [|discriminate].
    inversion H; subst. simpl. f_equal. by apply IH.
Qed.

Lemma mapM_outcome_lookup {A B} (f : A -> outcome B) (l : list A) (ys : list B)
    (i : nat) (a : A) :
  mapM_outcome f l = Normal ys -> l !! i = Some a ->
  exists y, ys !! i = Some y /\ f a = Normal y.
Proof.
  revert ys i. induction l as [|a0 l IH]; intros ys i H Hi; [done|].
  simpl in H. destruct (f a0) as [b0|] eqn:Hf; [|discriminate].
  destruct (mapM_outcome f l) as [bs|]; [|discriminate].
  inversion H; subst. destruct i as [|i]; simpl in *.
  - inversion Hi; subst. eauto.
  - by apply IH.
Qed.

(** ** The loops act on the persons list only *)

Section PersonsViewFacts.
Context {C : Collaborators}.

Lemma with_persons_with_persons ps ps' (s : State WUserOutput) :
  with_persons ps (with_persons ps' s) = with_persons ps s.
Proof. reflexivity. Qed.

Lemma zoom_bind {A B} (m : M (State WUserOutput) A) (k : A -> M (State WUserOutput) B)
    (pm : M (list Person) A) (pk : A -> M (list Person) B) (s : State WUserOutput) :
  m s = zoom pm s ->
  (forall a ps, k a (with_persons ps s) = zoom (pk a) (with_persons ps s)) ->
  bind m k s = zoom (bind pm pk) s.
Proof.
  intros Hm Hk. unfold bind. rewrite Hm. unfold zoom at 1 2. simpl.
  destruct (pm (persons (mFrame (this s)))) as [[a|e] ps]; simpl; [|done].
  rewrite Hk. unfold zoom. simpl. done.
Qed.

Lemma zoom_forM_ {A} (l : list A) (body : A -> M (State WUserOutput) unit)
    (pbody : A -> M (list Person) unit) (s : State WUserOutput) :
  (forall a ps, body a (with_persons ps s) = zoom (pbody a) (with_persons ps s)) ->
  forall ps, forM_ l body (with_persons ps s) = zoom (forM_ l pbody) (with_persons ps s).
Proof.
  intros Hbody. induction l as [|a l IH]; intros ps; simpl.
  - reflexivity.
  - apply zoom_bind; [apply Hbody|]. intros _ ps'.
    rewrite with_persons_with_persons. apply IH.
Qed.

Lemma zoom_resize_persons (n : Z) (s : State WUserOutput) :
  resize_persons n s = zoom (persons_resize n) s.
Proof.
  destruct s as [[[h ps]] r w].
  unfold resize_persons, persons_resize, zoom, bind, gets, lift, modify_persons,
    modify_mFrame, modify, with_persons, id. simpl.
  destruct (vector_resize n Person_new ps); reflexivity.
Qed.

Lemma zoom_resize_bodyParts (person n : Z) (s : State WUserOutput) :
  resize_bodyParts person n s = zoom (persons_resize_bodyParts person n) s.
Proof.
  destruct s as [[[h ps]] r w].
  unfold resize_bodyParts, persons_resize_bodyParts, zoom, bind, gets, lift,
    modify_persons, modify_mFrame, modify, with_persons, id. simpl.
  destruct (vector_resize n BodyPart_new _); reflexivity.
Qed.

Lemma assign_bodyPart_with_persons person bodyPart f (s : State WUserOutput) :
  assign_bodyPart person bodyPart f s =
  (Normal tt,
   with_persons
     (vector_update person
        (fun p => mkPerson (vector_update bodyPart f (bodyParts p)))
        (persons (mFrame (this s)))) s).
Proof. reflexivity. Qed.

(** The six assignments of the inner loop amount to storing one body part. *)
Lemma six_assignments (person bodyPart : Z) (x y sc : float) (pt : float * float * float)
    (ps : list Person) :
  let upd f := vector_update person
                 (fun p => mkPerson (vector_update bodyPart f (bodyParts p))) in
  upd (set_point_z pt.2) (upd (set_point_y pt.1.2) (upd (set_point_x pt.1.1)
    (upd (set_score sc) (upd (set_pixel_y y) (upd (set_pixel_x x) ps))))) =
  put_bodyPart person bodyPart
    (mkBodyPart sc (mkPixel x y) (mkPoint32 pt.1.1 pt.1.2 pt.2)) ps.
Proof.
  simpl. unfold put_bodyPart, vector_update.
  rewrite !list_alter_alter_eq. apply list_alter_ext; [|done].
  intros [bps] _. simpl. f_equal.
  rewrite !list_alter_alter_eq. apply list_alter_ext; [|done].
  intros [sc0 [x0 y0] [a b c]] _. reflexivity.
Qed.

Lemma zoom_bodyPart (kp : Array float) (person bodyPart : Z) (s : State WUserOutput) :
  workConsumer_bodyPart kp (getSize kp 1) person bodyPart s =
  zoom (persons_bodyPart (camera (world s)) kp person bodyPart) s.
Proof.
  destruct s as [[[h ps]] r w].
  unfold workConsumer_bodyPart, persons_bodyPart, keypoint_bodyPart, baseIndex.
  unfold zoom, bind, lift, call_compute3DPoint. simpl.
  destruct (Array_at kp _) as [x|e]; [|done].
  destruct (Array_at kp _) as [y|e]; [|done].
  destruct (Array_at kp _) as [sc|e]; [|done].
  destruct (compute3DPoint _ x y) as [pt|e]; [|done].
  rewrite !assign_bodyPart_with_persons. simpl.
  unfold modify. simpl. f_equal. unfold with_persons. simpl.
  pose proof (six_assignments person bodyPart x y sc pt ps) as H.
  simpl in H. rewrite H. reflexivity.
Qed.

Lemma zoom_person (kp : Array float) (person : Z) (s : State WUserOutput) :
  workConsumer_person kp (getSize kp 1) person s =
  zoom (persons_person (camera (world s)) kp person) s.
Proof.
  unfold workConsumer_person, persons_person.
  apply zoom_bind; [apply zoom_resize_bodyParts|].
  intros _ ps. unfold for_upto. apply zoom_forM_.
  intros b ps'. apply (zoom_bodyPart kp person b (with_persons ps' s)).
Qed.

Lemma zoom_loops (kp : Array float) (s : State WUserOutput) :
  bind (resize_persons (getSize kp 0))
    (fun _ => for_upto (getSize kp 0) (workConsumer_person kp (getSize kp 1))) s =
  zoom (persons_loops (camera (world s)) kp) s.
Proof.
  unfold persons_loops.
  apply zoom_bind; [apply zoom_resize_persons|].
  intros _ ps. unfold for_upto. apply zoom_forM_.
  intros p ps'. apply (zoom_person kp p (with_persons ps' s)).
Qed.

End PersonsViewFacts.

(** ** What the loops leave in the persons list *)

Section PersonsLoops.
Context {C : Collaborators}.

Lemma seqZ_S (k : Z) (n : nat) :
  seqZ k (Z.of_nat (S n)) = k :: seqZ (k + 1) (Z.of_nat n).
Proof.
  rewrite seqZ_cons by lia. f_equal. f_equal; lia.
Qed.

Lemma put_bodyPart_middle (p b : Z) (bp r : BodyPart)
    (pre post : list Person) (done rest : list BodyPart) :
  length pre = Z.to_nat p -> length done = Z.to_nat b ->
  put_bodyPart p b bp (pre ++ mkPerson (done ++ r :: rest) :: post) =
  pre ++ mkPerson ((done ++ [bp]) ++ rest) :: post.
Proof.
  intros Hp Hb. unfold put_bodyPart, vector_update.
  rewrite <- Hp, <- (Nat.add_0_r (length pre)), alter_app_r. simpl.
  rewrite <- Hb, <- (Nat.add_0_r (length done)), alter_app_r. simpl.
  by rewrite <- app_assoc.
Qed.

Lemma persons_bodyPart_then (cam : CameraReader) (kp : Array float) (p b : Z)
    (k : unit -> M (list Person) unit) (ps : list Person) :
  bind (persons_bodyPart cam kp p b) k ps =
  match keypoint_bodyPart cam kp p b with
  | Normal bp => k tt (put_bodyPart p b bp ps)
  | Raise e => (Raise e, ps)
  end.
Proof.
  unfold persons_bodyPart, bind, lift, modify.
  destruct (keypoint_bodyPart cam kp p b); reflexivity.
Qed.

Lemma persons_inner_loop (cam : CameraReader) (kp : Array float) (p : Z)
    (pre post : list Person) :
  length pre = Z.to_nat p ->
  forall (rest done : list BodyPart) (k : Z),
    0 <= k -> length done = Z.to_nat k ->
    match mapM_outcome (keypoint_bodyPart cam kp p) (seqZ k (Z.of_nat (length rest))) with
    | Normal bps =>
        forM_ (seqZ k (Z.of_nat (length rest))) (persons_bodyPart cam kp p)
          (pre ++ mkPerson (done ++ rest) :: post) =
        (Normal tt, pre ++ mkPerson (done ++ bps) :: post)
    | Raise e =>
        (forM_ (seqZ k (Z.of_nat (length rest))) (persons_bodyPart cam kp p)
           (pre ++ mkPerson (done ++ rest) :: post)).1 = Raise e
    end.
Proof.
  intros Hp. induction rest as [|r rest IH]; intros done k Hk Hdone.
  - simpl. reflexivity.
  - cbn [length]. rewrite seqZ_S. cbn [mapM_outcome forM_].
    rewrite persons_bodyPart_then.
    destruct (keypoint_bodyPart cam kp p k) as [bp|e] eqn:Hbp; [|reflexivity].
    rewrite put_bodyPart_middle by assumption.
    specialize (IH (done ++ [bp]) (k + 1)).
    destruct (mapM_outcome _ (seqZ (k + 1) _)) as [bps|e].
    + rewrite IH by (rewrite ?length_app; simpl; lia).
      by rewrite <- app_assoc.
    + apply IH; rewrite ?length_app; simpl; lia.
Qed.

Lemma persons_resize_bodyParts_then (p n : Z) (k : unit -> M (list Person) unit)
    (pre post : list Person) (r : Person) :
  length pre = Z.to_nat p ->
  bind (persons_resize_bodyParts p n) k (pre ++ r :: post) =
  if n <? 0 then (Raise length_error, pre ++ r :: post)
  else k tt (pre ++ mkPerson (resize (Z.to_nat n) BodyPart_new (bodyParts r)) :: post).
Proof.
  intros Hp. unfold persons_resize_bodyParts, bind, gets, lift, modify, vector_resize, id.
  rewrite list_lookup_middle by done. simpl.
  destruct (n <? 0); [reflexivity|].
  unfold vector_update. rewrite <- Hp.
  by rewrite <- (Nat.add_0_r (length pre)), alter_app_r.
Qed.

Lemma persons_person_spec (cam : CameraReader) (kp : Array float) (p : Z)
    (pre post : list Person) (r : Person) :
  length pre = Z.to_nat p ->
  match keypoint_person cam kp p with
  | Normal person =>
      persons_person cam kp p (pre ++ r :: post) = (Normal tt, pre ++ person :: post)
  | Raise e => (persons_person cam kp p (pre ++ r :: post)).1 = Raise e
  end.
Proof.
  intros Hp. unfold keypoint_person, persons_person.
  rewrite persons_resize_bodyParts_then by assumption.
  destruct (getSize kp 1 <? 0) eqn:Hneg; [reflexivity|].
  apply Z.ltb_ge in Hneg.
  set (bps0 := resize _ _ _).
  assert (Hlen : getSize kp 1 = Z.of_nat (length bps0)).
  { unfold bps0. rewrite length_resize. lia. }
  unfold for_upto. rewrite Hlen.
  pose proof (persons_inner_loop cam kp p pre post Hp bps0 [] 0) as H.
  simpl in H. specialize (H ltac:(lia) ltac:(reflexivity)).
  destruct (mapM_outcome _ _) as [bps|e]; assumption.
Qed.

Lemma persons_outer_loop (cam : CameraReader) (kp : Array float) :
  forall (rest done : list Person) (k : Z),
    0 <= k -> length done = Z.to_nat k ->
    match mapM_outcome (keypoint_person cam kp) (seqZ k (Z.of_nat (length rest))) with
    | Normal ps =>
        forM_ (seqZ k (Z.of_nat (length rest))) (persons_person cam kp) (done ++ rest) =
        (Normal tt, done ++ ps)
    | Raise e =>
        (forM_ (seqZ k (Z.of_nat (length rest))) (persons_person cam kp)
           (done ++ rest)).1 = Raise e
    end.
Proof.
  induction rest as [|r rest IH]; intros done k Hk Hdone.
  - simpl. by rewrite app_nil_r.
  - cbn [length]. rewrite seqZ_S. cbn [mapM_outcome forM_].
    unfold bind.
    pose proof (persons_person_spec cam kp k done rest r Hdone) as Hperson.
    destruct (keypoint_person cam kp k) as [person|e].
    + rewrite Hperson.
      specialize (IH (done ++ [person]) (k + 1)).
      rewrite <- !app_assoc in IH. simpl in IH.
      destruct (mapM_outcome _ (seqZ (k + 1) _)) as [ps|e];
        [rewrite <- app_assoc in IH|];
        apply IH; rewrite ?length_app; simpl; lia.
    + destruct (persons_person cam kp k (done ++ r :: rest)) as [[[]|e'] ps'];
        simpl in *; congruence.
Qed.

(** From an emptied persons list, the loops build the expected persons,
    or raise the exception the expected persons raise. *)
Lemma persons_loops_spec (cam : CameraReader) (kp : Array float) :
  match keypoint_persons cam kp with
  | Normal ps => persons_loops cam kp [] = (Normal tt, ps)
  | Raise e => (persons_loops cam kp []).1 = Raise e
  end.
Proof.
  unfold keypoint_persons, persons_loops, persons_resize.
  unfold bind, gets, lift, modify, vector_resize, id.
  destruct (getSize kp 0 <? 0) eqn:Hneg; [reflexivity|].
  apply Z.ltb_ge in Hneg. rewrite resize_nil.
  set (ps0 := replicate _ _).
  assert (Hlen : getSize kp 0 = Z.of_nat (length ps0)).
  { unfold ps0. rewrite length_replicate. lia. }
  unfold for_upto. rewrite Hlen.
  exact (persons_outer_loop cam kp ps0 [] 0 ltac:(lia) ltac:(reflexivity)).
Qed.

End PersonsLoops.

(** ** The two workers, statement by statement *)

Lemma bind_assoc {S A B D} (m : M S A) (k : A -> M S B) (h : B -> M S D) (s : S) :
  bind (bind m k) h s = bind m (fun a => bind (k a) h) s.
Proof. unfold bind. destruct (m s) as [[a|e] s']; reflexivity. Qed.

Lemma bind_lift_Normal {S A B} (a : A) (k : A -> M S B) (s : S) :
  bind (lift (Normal a)) k s = k a s.
Proof. reflexivity. Qed.

Lemma bind_gets {S A B} (f : S -> A) (k : A -> M S B) (s : S) :
  bind (gets f) k s = k (f s) s.
Proof. reflexivity. Qed.

Lemma bind_modify {S B} (f : S -> S) (k : unit -> M S B) (s : S) :
  bind (modify f) k s = k tt (f s).
Proof. reflexivity. Qed.

Section WorkerFacts.
Context {C : Collaborators}.

Lemma workConsumer_try_skip (datumsPtr : sPtrVecSPtrDatum) (s : State WUserOutput) :
  datumsPtr = None \/ datumsPtr = Some [] ->
  workConsumer_try datumsPtr s = (Normal tt, s).
Proof. intros [-> | ->]; reflexivity. Qed.

Lemma bind_copyLatestDepthImage {Obj B} (k : unit -> M (State Obj) B) (s : State Obj) :
  bind call_copyLatestDepthImage k s =
  match copyLatestDepthImage (camera (world s)) with
  | Normal cam' =>
      k tt (mkState (this s) (mIsRunning s)
              (mkWorld cam' (clock (world s)) (events (world s))))
  | Raise e => (Raise e, s)
  end.
Proof.
  unfold bind, call_copyLatestDepthImage.
  destruct (copyLatestDepthImage (camera (world s))); reflexivity.
Qed.

Lemma workConsumer_try_spec (datum0 : Datum) (rest : list Datum) (s : State WUserOutput) :
  match copyLatestDepthImage (camera (world s)) with
  | Raise e =>
      workConsumer_try (Some (datum0 :: rest)) s =
      (Raise e, mkState (mkWUserOutput (restamped s)) (mIsRunning s) (world s))
  | Normal cam' =>
      match keypoint_persons cam' (poseKeypoints datum0) with
      | Normal ps =>
          workConsumer_try (Some (datum0 :: rest)) s =
          (Normal tt,
           mkState (mkWUserOutput (set_persons ps (restamped s))) (mIsRunning s)
             (mkWorld cam' (clock (world s))
                (events (world s) ++ [Published (set_persons ps (restamped s))])))
      | Raise e =>
          exists ps',
            workConsumer_try (Some (datum0 :: rest)) s =
            (Raise e,
             mkState (mkWUserOutput (set_persons ps' (restamped s))) (mIsRunning s)
               (mkWorld cam' (clock (world s)) (events (world s))))
      end
  end.
Proof.
  destruct s as [[[h ps0]] r [cam t evs]].
  unfold workConsumer_try, restamped. simpl.
  change (vector_at (datum0 :: rest) 0) with (Normal datum0).
  unfold Time_now, modify_persons, modify_mFrame.
  rewrite bind_lift_Normal, bind_gets, !bind_modify, bind_copyLatestDepthImage. simpl.
  destruct (copyLatestDepthImage cam) as [cam'|e]; [|reflexivity].
  set (kp := poseKeypoints datum0).
  rewrite <- (bind_assoc (resize_persons (getSize kp 0))
                (fun _ => for_upto (getSize kp 0) (workConsumer_person kp (getSize kp 1)))
                (fun _ => publish_mFrame)).
  pose proof (persons_loops_spec cam' kp) as Hloops.
  destruct (keypoint_persons cam' kp) as [ps|e].
  - unfold bind at 1. rewrite zoom_loops. unfold zoom. simpl.
    rewrite Hloops. reflexivity.
  - destruct (persons_loops cam' kp []) as [[[]|e'] ps'] eqn:Hrun;
      simpl in Hloops; [congruence|].
    exists ps'. unfold bind at 1. rewrite zoom_loops. unfold zoom. simpl.
    rewrite Hrun. injection Hloops as ->. reflexivity.
Qed.

Lemma workConsumer_caught (datumsPtr : sPtrVecSPtrDatum) (s s' : State WUserOutput)
    (e : exception) :
  workConsumer_try datumsPtr s = (Raise e, s') ->
  workConsumer datumsPtr s =
  (Normal tt,
   mkState (this s') false
     (mkWorld (camera (world s')) (clock (world s'))
        (events (world s') ++ [consumer_error e]))).
Proof. intros H. unfold workConsumer, try_catch. rewrite H. reflexivity. Qed.

Lemma workConsumer_passed (datumsPtr : sPtrVecSPtrDatum) (s s' : State WUserOutput) :
  workConsumer_try datumsPtr s = (Normal tt, s') ->
  workConsumer datumsPtr s = (Normal tt, s').
Proof. intros H. unfold workConsumer, try_catch. rewrite H. reflexivity. Qed.

Lemma workProducer_caught (s s' : State WUserInput) (e : exception) :
  workProducer_try s = (Raise e, s') ->
  workProducer s =
  (Normal None,
   mkState (this s') false
     (mkWorld (camera (world s')) (clock (world s'))
        (events (world s') ++ [producer_error e]))).
Proof. intros H. unfold workProducer, try_catch. rewrite H. reflexivity. Qed.

Lemma output_of_app {Obj A} (m : M (State Obj) A) (s : State Obj) (new : list Event) :
  events (world (m s).2) = events (world s) ++ new -> output_of m s = new.
Proof. intros H. unfold output_of. rewrite H. apply drop_app_length. Qed.

Lemma workConsumer_events (datum0 : Datum) (rest : list Datum) (s : State WUserOutput) :
  events (world (workConsumer (Some (datum0 :: rest)) s).2) =
  events (world s) ++ consumer_events datum0 s.
Proof.
  pose proof (workConsumer_try_spec datum0 rest s) as H. unfold consumer_events.
  destruct (copyLatestDepthImage (camera (world s))) as [cam'|e].
  - destruct (keypoint_persons cam' (poseKeypoints datum0)) as [ps|e].
    + by rewrite (workConsumer_passed _ _ _ H).
    + destruct H as [ps' H]. by rewrite (workConsumer_caught _ _ _ _ H).
  - by rewrite (workConsumer_caught _ _ _ _ H).
Qed.

Lemma workConsumer_output (datum0 : Datum) (rest : list Datum) (s : State WUserOutput) :
  output_of (workConsumer (Some (datum0 :: rest))) s = consumer_events datum0 s.
Proof. apply output_of_app, workConsumer_events. Qed.

Lemma workConsumer_skip (datumsPtr : sPtrVecSPtrDatum) (s : State WUserOutput) :
  datumsPtr = None \/ datumsPtr = Some [] ->
  workConsumer datumsPtr s = (Normal tt, s).
Proof. intros H. apply workConsumer_passed, workConsumer_try_skip, H. Qed.

Lemma output_of_nothing {Obj A} (m : M (State Obj) A) (s : State Obj) (a : A) :
  m s = (Normal a, s) -> output_of m s = [].
Proof. intros H. unfold output_of. rewrite H. apply drop_all. Qed.

(** An invocation keeps [seq] and [frame_id] of the stored frame. *)
Lemma workConsumer_header (datumsPtr : sPtrVecSPtrDatum) (s : State WUserOutput) :
  let s' := (workConsumer datumsPtr s).2 in
  frame_id (header (mFrame (this s'))) = frame_id (header (mFrame (this s))) /\
  seq (header (mFrame (this s'))) = seq (header (mFrame (this s))).
Proof.
  destruct datumsPtr as [[|datum0 rest]|];
    [by rewrite workConsumer_skip by auto | | by rewrite workConsumer_skip by auto].
  pose proof (workConsumer_try_spec datum0 rest s) as H.
  destruct (copyLatestDepthImage (camera (world s))) as [cam'|e].
  - destruct (keypoint_persons cam' (poseKeypoints datum0)) as [ps|e].
    + by rewrite (workConsumer_passed _ _ _ H).
    + destruct H as [ps' H]. by rewrite (workConsumer_caught _ _ _ _ H).
  - by rewrite (workConsumer_caught _ _ _ _ H).
Qed.

(** A frame published by an invocation: the reader took its depth copy,
    the persons are the expected ones, and the header is the stored one
    with the stamp of the invocation. *)
Lemma published_inv (datum0 : Datum) (rest : list Datum) (s : State WUserOutput) (f : Frame) :
  Published f ∈ output_of (workConsumer (Some (datum0 :: rest))) s ->
  exists cam' ps,
    copyLatestDepthImage (camera (world s)) = Normal cam' /\
    keypoint_persons cam' (poseKeypoints datum0) = Normal ps /\
    f = set_persons ps (restamped s).
Proof.
  rewrite workConsumer_output. unfold consumer_events, consumer_error.
  destruct (copyLatestDepthImage (camera (world s))) as [cam'|e] eqn:Hcopy.
  - destruct (keypoint_persons cam' (poseKeypoints datum0)) as [ps|e] eqn:Hps.
    + intros Hin. apply list_elem_of_singleton in Hin. injection Hin as ->.
      by exists cam', ps.
    + intros Hin. apply list_elem_of_singleton in Hin. discriminate.
  - intros Hin. apply list_elem_of_singleton in Hin. discriminate.
Qed.

End WorkerFacts.

(** ** Reading the expected persons *)

Section ExpectedFacts.
Context {C : Collaborators}.

Lemma mapM_outcome_seqZ {B} (f : Z -> outcome B) (n : Z) (ys : list B) :
  mapM_outcome f (seqZ 0 n) = Normal ys ->
  length ys = Z.to_nat n /\
  forall i, 0 <= i < n -> exists y, ys !! Z.to_nat i = Some y /\ f i = Normal y.
Proof.
  intros H. split.
  - rewrite (mapM_outcome_length _ _ _ H). apply length_seqZ.
  - intros i Hi. apply (mapM_outcome_lookup _ _ _ (Z.to_nat i) i H).
    rewrite lookup_seqZ_lt by lia. f_equal. lia.
Qed.

Lemma keypoint_persons_inv (cam : CameraReader) (kp : Array float) (ps : list Person) :
  keypoint_persons cam kp = Normal ps ->
  length ps = Z.to_nat (getSize kp 0) /\
  forall person, 0 <= person < getSize kp 0 ->
    exists p, ps !! Z.to_nat person = Some p /\ keypoint_person cam kp person = Normal p.
Proof.
  unfold keypoint_persons. destruct (getSize kp 0 <? 0); [discriminate|].
  apply mapM_outcome_seqZ.
Qed.

Lemma keypoint_person_inv (cam : CameraReader) (kp : Array float) (person : Z) (p : Person) :
  keypoint_person cam kp person = Normal p ->
  length (bodyParts p) = Z.to_nat (getSize kp 1) /\
  forall bodyPart, 0 <= bodyPart < getSize kp 1 ->
    exists bp, bodyParts p !! Z.to_nat bodyPart = Some bp /\
               keypoint_bodyPart cam kp person bodyPart = Normal bp.
Proof.
  unfold keypoint_person. destruct (getSize kp 1 <? 0); [discriminate|].
  destruct (mapM_outcome _ _) as [bps|] eqn:Hbps; [|discriminate].
  intros H. injection H as <-. simpl. by apply mapM_outcome_seqZ.
Qed.

Lemma keypoint_bodyPart_inv (cam : CameraReader) (kp : Array float)
    (person bodyPart : Z) (bp : BodyPart) :
  keypoint_bodyPart cam kp person bodyPart = Normal bp ->
  Array_at kp (baseIndex kp person bodyPart) = Normal (pixel_x (pixel bp)) /\
  Array_at kp (baseIndex kp person bodyPart + 1) = Normal (pixel_y (pixel bp)) /\
  Array_at kp (baseIndex kp person bodyPart + 2) = Normal (score bp) /\
  compute3DPoint cam (pixel_x (pixel bp)) (pixel_y (pixel bp)) =
    Normal (point_x (point bp), point_y (point bp), point_z (point bp)).
Proof.
  unfold keypoint_bodyPart.
  destruct (Array_at kp (baseIndex kp person bodyPart)) as [x|]; [|discriminate].
  destruct (Array_at kp (baseIndex kp person bodyPart + 1)) as [y|]; [|discriminate].
  destruct (Array_at kp (baseIndex kp person bodyPart + 2)) as [sc|]; [|discriminate].
  destruct (compute3DPoint cam x y) as [[[px py] pz]|] eqn:Hpt; [|discriminate].
  intros H. injection H as <-. simpl. auto.
Qed.

(** A body part found in the expected persons is the one of its keypoint. *)
Lemma keypoint_persons_lookup (cam : CameraReader) (kp : Array float) (ps : list Person)
    (i j : nat) (p : Person) (bp : BodyPart) :
  keypoint_persons cam kp = Normal ps ->
  ps !! i = Some p -> bodyParts p !! j = Some bp ->
  keypoint_bodyPart cam kp (Z.of_nat i) (Z.of_nat j) = Normal bp.
Proof.
  intros Hps Hi Hj.
  destruct (keypoint_persons_inv _ _ _ Hps) as [Hlen Hpersons].
  apply lookup_lt_Some in Hi as Hi'.
  destruct (Hpersons (Z.of_nat i) ltac:(lia)) as (p' & Hp' & Hperson).
  rewrite Nat2Z.id in Hp'. assert (p' = p) as -> by congruence.
  destruct (keypoint_person_inv _ _ _ _ Hperson) as [Hlenb Hparts].
  apply lookup_lt_Some in Hj as Hj'.
  destruct (Hparts (Z.of_nat j) ltac:(lia)) as (bp' & Hbp' & Hpart).
  rewrite Nat2Z.id in Hbp'. congruence.
Qed.

End ExpectedFacts.

(** * The claims *)

Section Claims.
Context {C : Collaborators}.

(** C1. A frame published by a consumer invocation on a non-empty datum
  vector holds exactly [personCount = getSize(0)] persons; person
  [person] holds exactly [bodyPartCount = getSize(1)] body parts, and its
  body part [bodyPart] carries as pixel.x, pixel.y and score the
  keypoint values at the flat indices
  [getSize(2) * (person * bodyPartCount + bodyPart)], [+ 1] and [+ 2],
  and as point what [compute3DPoint] yields for that pixel on the
  reader's fresh depth copy. *)
Theorem published_frame_content (datum0 : Datum) (rest : list Datum)
  (s : State WUserOutput) (f : Frame) :
Published f ∈ output_of (workConsumer (Some (datum0 :: rest))) s ->
let poseKeypoints := poseKeypoints datum0 in
let personCount := getSize poseKeypoints 0 in
let bodyPartCount := getSize poseKeypoints 1 in
length (persons f) = Z.to_nat personCount /\
exists cam',
  copyLatestDepthImage (camera (world s)) = Normal cam' /\
  forall person, 0 <= person < personCount ->
    exists p,
      persons f !! Z.to_nat person = Some p /\
      length (bodyParts p) = Z.to_nat bodyPartCount /\
      forall bodyPart, 0 <= bodyPart < bodyPartCount ->
        let baseIndex :=
          getSize poseKeypoints 2 * (person * bodyPartCount + bodyPart) in
        exists bp,
          bodyParts p !! Z.to_nat bodyPart = Some bp /\
          Array_at poseKeypoints baseIndex = Normal (pixel_x (pixel bp)) /\
          Array_at poseKeypoints (baseIndex + 1) = Normal (pixel_y (pixel bp)) /\
          Array_at poseKeypoints (baseIndex + 2) = Normal (score bp) /\
          compute3DPoint cam' (pixel_x (pixel bp)) (pixel_y (pixel bp)) =
            Normal (point_x (point bp), point_y (point bp), point_z (point bp)).
Proof.
intros Hpub. simpl.
destruct (published_inv _ _ _ _ Hpub) as (cam' & ps & Hcopy & Hps & ->).
destruct (keypoint_persons_inv _ _ _ Hps) as [Hlen Hpersons].
split; [exact Hlen|]. exists cam'. split; [exact Hcopy|].
intros person Hperson.
destruct (Hpersons person Hperson) as (p & Hp & Hkp).
destruct (keypoint_person_inv _ _ _ _ Hkp) as [Hlenb Hparts].
exists p. split; [exact Hp|]. split; [exact Hlenb|].
intros bodyPart HbodyPart.
destruct (Hparts bodyPart HbodyPart) as (bp & Hbp & Hkbp).
exists bp. split; [exact Hbp|].
exact (keypoint_bodyPart_inv _ _ _ _ _ Hkbp).
Qed.

Lemma workProducer_try_spec (s : State WUserInput) :
  workProducer_try s =
  match getColorFrame (camera (world s)) with
  | Normal colorImage =>
      if Mat_empty colorImage
      then (Normal None, add_events [Slept 1; empty_frame_warning] s)
      else (Normal (Some [set_cvInputData colorImage Datum_new]), add_events [Slept 1] s)
  | Raise e => (Raise e, add_events [Slept 1] s)
  end.
Proof.
  destruct s as [o r [cam t evs]].
  unfold workProducer_try, sleep_for, emit. rewrite bind_modify. simpl.
  unfold bind, call_getColorFrame, add_events. simpl.
  destruct (getColorFrame cam) as [img|e]; [|reflexivity].
  destruct (Mat_empty img); simpl; [|reflexivity].
  unfold ROS_WARN_THROTTLE, emit, modify, ret, empty_frame_warning. simpl.
  by rewrite <- app_assoc.
Qed.

(** C2. An empty or missing frame is skipped. When the latest color
  image is empty the producer returns the null pointer, having run its
  sleep and the throttled warning and nothing else: no exception, no
  stop. When the datum vector is null or empty the consumer raises
  nothing, publishes nothing and leaves its state as it was. *)
Theorem empty_frame_skipped :
(forall (s : State WUserInput) (colorImage : Mat),
   getColorFrame (camera (world s)) = Normal colorImage ->
   Mat_empty colorImage = true ->
   workProducer_try s = workProducer s /\
   workProducer s = (Normal None, add_events [Slept 1; empty_frame_warning] s)) /\
(forall (datumsPtr : sPtrVecSPtrDatum) (s : State WUserOutput),
   datumsPtr = None \/ datumsPtr = Some [] ->
   workConsumer_try datumsPtr s = (Normal tt, s) /\
   workConsumer datumsPtr s = (Normal tt, s) /\
   output_of (workConsumer datumsPtr) s = []).
Proof.
split.
- intros s colorImage Hget Hempty.
  unfold workProducer, try_catch. rewrite workProducer_try_spec, Hget, Hempty. done.
- intros datumsPtr s Hskip.
  split; [by apply workConsumer_try_skip|].
  split; [by apply workConsumer_skip|].
  apply (output_of_nothing _ _ tt). by apply workConsumer_skip.
Qed.

(** C7. When the latest color image of the reader is not empty, the
  producer returns a vector of exactly one datum, whose [cvInputData] is
  that image. *)
Theorem producer_wraps_color_frame (s : State WUserInput) (colorImage : Mat) :
getColorFrame (camera (world s)) = Normal colorImage ->
Mat_empty colorImage = false ->
exists datum,
  (workProducer s).1 = Normal (Some [datum]) /\
  cvInputData datum = colorImage.
Proof.
intros Hget Hnonempty.
exists (set_cvInputData colorImage Datum_new). split; [|reflexivity].
unfold workProducer, try_catch. by rewrite workProducer_try_spec, Hget, Hnonempty.
Qed.

(** C4. An exception raised inside the [try] block of a worker does not
  leave the worker: the handler stops the worker ([mIsRunning] becomes
  false, so the worker loop does not invoke it again), logs the
  exception with line, function and file, and the invocation ends
  normally; the producer returns the null pointer. *)
Theorem exception_caught_at_worker_boundary :
(forall (s s' : State WUserInput) (e : exception),
   workProducer_try s = (Raise e, s') ->
   let s'' := (workProducer s).2 in
   (workProducer s).1 = Normal None /\
   mIsRunning s'' = false /\
   events (world s'') = events (world s') ++
     [Logged Error None "Error %s at line number %d on function %s in file %s"
        [ArgString (what e); ArgInt 73; ArgString "workProducer"; ArgString FILE]] /\
   checkAndWork_producer s'' = (Normal (None, false), s'')) /\
(forall (datumsPtr : sPtrVecSPtrDatum) (s s' : State WUserOutput) (e : exception),
   workConsumer_try datumsPtr s = (Raise e, s') ->
   let s'' := (workConsumer datumsPtr s).2 in
   (workConsumer datumsPtr s).1 = Normal tt /\
   mIsRunning s'' = false /\
   events (world s'') = events (world s') ++
     [Logged Error None "Error %s at line number %d on function %s in file %s"
        [ArgString (what e); ArgInt 164; ArgString "workConsumer"; ArgString FILE]] /\
   forall next, checkAndWork_consumer next s'' = (Normal false, s'')).
Proof.
split.
- intros s s' e Hraise. rewrite (workProducer_caught _ _ _ Hraise). simpl.
  repeat split.
- intros datumsPtr s s' e Hraise. rewrite (workConsumer_caught _ _ _ _ Hraise). simpl.
  repeat split.
Qed.

(** C6. The number of frames a consumer invocation publishes: none for a
  null or empty datum vector; for a non-empty one, exactly one when the
  [try] block ends normally and none when it raises. *)
Theorem one_publish_unless_raised (datumsPtr : sPtrVecSPtrDatum) (s : State WUserOutput) :
length (published (output_of (workConsumer datumsPtr) s)) =
match datumsPtr with
| None | Some [] => 0%nat
| Some (_ :: _) =>
    match (workConsumer_try datumsPtr s).1 with
    | Normal _ => 1%nat
    | Raise _ => 0%nat
    end
end.
Proof.
destruct datumsPtr as [[|datum0 rest]|].
- by rewrite (output_of_nothing _ _ tt) by (apply workConsumer_skip; auto).
- rewrite workConsumer_output. unfold consumer_events.
  pose proof (workConsumer_try_spec datum0 rest s) as H.
  destruct (copyLatestDepthImage (camera (world s))) as [cam'|e].
  + destruct (keypoint_persons cam' (poseKeypoints datum0)) as [ps|e].
    * by rewrite H.
    * destruct H as [ps' ->]. reflexivity.
  + by rewrite H.
- by rewrite (output_of_nothing _ _ tt) by (apply workConsumer_skip; auto).
Qed.


Lemma workConsumer_appends (datumsPtr : sPtrVecSPtrDatum) (s : State WUserOutput) :
  events (world (workConsumer datumsPtr s).2) =
  events (world s) ++ output_of (workConsumer datumsPtr) s.
Proof.
  destruct datumsPtr as [[|datum0 rest]|].
  - rewrite (output_of_nothing _ _ tt), workConsumer_skip by (try apply workConsumer_skip; auto).
    by rewrite app_nil_r.
  - by rewrite workConsumer_output, workConsumer_events.
  - rewrite (output_of_nothing _ _ tt), workConsumer_skip by (try apply workConsumer_skip; auto).
    by rewrite app_nil_r.
Qed.

Lemma published_frame_id (datumsPtr : sPtrVecSPtrDatum) (s : State WUserOutput) (f : Frame) :
  f ∈ published (output_of (workConsumer datumsPtr) s) ->
  frame_id (header f) = frame_id (header (mFrame (this s))).
Proof.
  unfold published. rewrite list_elem_of_omap. intros (ev & Hev & Hf).
  destruct ev as [| |f']; try discriminate. injection Hf as ->.
  destruct datumsPtr as [[|datum0 rest]|].
  - rewrite (output_of_nothing _ _ tt) in Hev by (apply workConsumer_skip; auto).
    by apply elem_of_nil in Hev.
  - destruct (published_inv _ _ _ _ Hev) as (cam' & ps & _ & _ & ->). reflexivity.
  - rewrite (output_of_nothing _ _ tt) in Hev by (apply workConsumer_skip; auto).
    by apply elem_of_nil in Hev.
Qed.

Lemma checkAndWork_carries_frame_id (frameId : string) (datumsPtr : sPtrVecSPtrDatum)
    (s : State WUserOutput) :
  carries_frame_id frameId s ->
  carries_frame_id frameId (checkAndWork_consumer datumsPtr s).2.
Proof.
  intros [Hid Hpub]. unfold checkAndWork_consumer.
  destruct (mIsRunning s); [|by split].
  unfold bind, gets.
  destruct (workConsumer datumsPtr s) as [[[]|e] s'] eqn:Hrun; simpl.
  - pose proof (workConsumer_header datumsPtr s) as [Hh _].
    pose proof (workConsumer_appends datumsPtr s) as Happ.
    rewrite Hrun in Hh, Happ. simpl in Hh, Happ. split; [congruence|].
    rewrite Happ. unfold published in *. rewrite omap_app, Forall_app. split; [done|].
    apply Forall_forall. intros f Hf.
    rewrite (published_frame_id datumsPtr s f Hf). exact Hid.
  - unfold workConsumer, try_catch in Hrun.
    destruct (workConsumer_try datumsPtr s) as [[[]|e0] s0]; discriminate.
Qed.

(** C9. The constructor stores the frame id, and no consumer invocation
  changes it (nor [seq]): after any sequence of deliveries to a
  consumer constructed with [frameId], the stored frame and every frame
  published so far carry [frameId]. *)
Theorem frame_id_constant (frameId : string) (cam : CameraReader) (t : Time) :
frame_id (header (mFrame (WUserOutput_new frameId))) = frameId /\
(forall (datumsPtr : sPtrVecSPtrDatum) (s : State WUserOutput),
   frame_id (header (mFrame (this (workConsumer datumsPtr s).2))) =
   frame_id (header (mFrame (this s))) /\
   seq (header (mFrame (this (workConsumer datumsPtr s).2))) =
   seq (header (mFrame (this s)))) /\
(forall (ds : list Delivery),
   let s := consume ds (WUserOutput_start frameId cam t) in
   frame_id (header (mFrame (this s))) = frameId /\
   Forall (fun f => frame_id (header f) = frameId) (published (events (world s)))).
Proof.
split; [reflexivity|]. split.
- intros datumsPtr s. apply workConsumer_header.
- intros ds. simpl.
  assert (Hstart : carries_frame_id frameId (WUserOutput_start frameId cam t))
    by (split; [reflexivity | constructor]).
  revert Hstart. generalize (WUserOutput_start frameId cam t).
  induction ds as [|d ds IH]; intros s Hs; [exact Hs|].
  simpl. apply IH. apply checkAndWork_carries_frame_id.
  destruct Hs as [Hid Hpub]. by split.
Qed.

End Claims.

(** ** Start-up *)

(** C3. When the parameter [openpose_model_dir] reads as the empty string,
    [main] logs the fatal message and leaves through [exit(-1)], having
    constructed neither camera reader, publisher nor wrapper. Otherwise
    start-up proceeds: [main] never takes that exit, sets the model folder
    and parses the flags, and, when neither the parsing nor the two
    constructions that stand outside the [try] block raise, constructs the
    reader and the publisher, enters the [try] block, constructs the
    wrapper and ends by [return]. *)
Theorem model_dir_required (FILE : string) (params : gmap string string)
    (raises : Main.Call -> option exception) :
  let openposeModelDir := Main.getParam_string params "openpose_model_dir" in
  let colorTopic := Main.getParam_string params "color_topic" in
  let depthTopic := Main.getParam_string params "depth_topic" in
  let camInfoTopic := Main.getParam_string params "cam_info_topic" in
  let pubTopic := Main.getParam_string params "pub_topic" in
  let preamble :=
    [Main.ros_init "ros_openpose_node"; Main.NodeHandle "~";
     Main.getParam "openpose_model_dir"; Main.getParam "color_topic";
     Main.getParam "depth_topic"; Main.getParam "cam_info_topic";
     Main.getParam "frame_id"; Main.getParam "pub_topic"] in
  (openposeModelDir = "" ->
     Main.main FILE params raises =
       (preamble ++ [Main.ROS_FATAL "Missing 'openpose_model_dir' info in launch file"],
        Main.exit (-1)) /\
     existsb Main.constructs (Main.main FILE params raises).1 = false) /\
  (openposeModelDir <> "" ->
     (forall status, (Main.main FILE params raises).2 <> Main.exit status) /\
     (exists rest,
        (Main.main FILE params raises).1 =
          preamble ++
          [Main.set_FLAGS_model_folder openposeModelDir;
           Main.ParseCommandLineFlags] ++ rest) /\
     (raises Main.ParseCommandLineFlags = None ->
      raises (Main.new_CameraReader colorTopic depthTopic camInfoTopic) = None ->
      raises (Main.advertise pubTopic 1) = None ->
      exists rest status,
        Main.main FILE params raises =
          (preamble ++
           [Main.set_FLAGS_model_folder openposeModelDir;
            Main.ParseCommandLineFlags;
            Main.new_CameraReader colorTopic depthTopic camInfoTopic;
            Main.advertise pubTopic 1;
            Main.ROS_INFO "Starting ros_openpose...";
            Main.new_Wrapper] ++ rest,
           Main.returns status))).
Proof.
  simpl. split.
  - intros Hdir. unfold Main.main. rewrite Hdir. simpl. done.
  - intros Hdir. unfold Main.main.
    rewrite bool_decide_eq_false_2 by assumption.
    unfold Main.main_try, Main.main_catch, Main.configureOpenPose, Main.log_error,
      Main.call, try_catch, bind, modify, ret.
    split; [|split].
    + intros status.
      destruct (raises Main.ParseCommandLineFlags); [discriminate|].
      destruct (raises (Main.new_CameraReader _ _ _)); [discriminate|].
      destruct (raises (Main.advertise _ _)); [discriminate|].
      destruct (raises Main.new_Wrapper); [discriminate|].
      destruct (raises (Main.Wrapper_configure _));
        (destruct (raises Main.Wrapper_start); [discriminate|]);
        (destruct (raises Main.ros_spin); [discriminate|]);
        (destruct (raises Main.Wrapper_stop); discriminate).
    + destruct (raises Main.ParseCommandLineFlags); [simpl; eexists; reflexivity|].
      destruct (raises (Main.new_CameraReader _ _ _)); [simpl; eexists; reflexivity|].
      destruct (raises (Main.advertise _ _)); [simpl; eexists; reflexivity|].
      destruct (raises Main.new_Wrapper); [simpl; eexists; reflexivity|].
      destruct (raises (Main.Wrapper_configure _));
        (destruct (raises Main.Wrapper_start); [simpl; eexists; reflexivity|]);
        (destruct (raises Main.ros_spin); [simpl; eexists; reflexivity|]);
        (destruct (raises Main.Wrapper_stop); simpl; eexists; reflexivity).
    + intros -> -> ->.
      destruct (raises Main.new_Wrapper); [simpl; eexists _, _; reflexivity|].
      destruct (raises (Main.Wrapper_configure _));
        (destruct (raises Main.Wrapper_start); [simpl; eexists _, _; reflexivity|]);
        (destruct (raises Main.ros_spin); [simpl; eexists _, _; reflexivity|]);
        (destruct (raises Main.Wrapper_stop); simpl; eexists _, _; reflexivity).
Qed.

(** ** The pinhole reader *)

Lemma project_deproject (K : Pinhole.Intrinsics) (x y depth : Q) :
  ~ (Pinhole.fx K == 0)%Q -> ~ (Pinhole.fy K == 0)%Q -> ~ (depth == 0)%Q ->
  ((Pinhole.project K (Pinhole.deproject K x y depth)).1 == x)%Q /\
  ((Pinhole.project K (Pinhole.deproject K x y depth)).2 == y)%Q.
Proof.
  intros Hfx Hfy Hd. unfold Pinhole.project, Pinhole.deproject. simpl.
  split; field; auto.
Qed.

(** C5. With the pinhole reader, the point of every body part of a
    published frame is the inverse pinhole projection, under the reader's
    intrinsics, of the body part's pixel and of the depth the latest depth
    image holds at that pixel; projecting the point back through the
    pinhole model returns the pixel. *)
Theorem keypoint_point_is_inverse_pinhole (file : string)
    (datum0 : @Datum (Pinhole.collaborators file))
    (rest : list (@Datum (Pinhole.collaborators file)))
    (s : @State (Pinhole.collaborators file) (@WUserOutput (Pinhole.collaborators file)))
    (f : @Frame (Pinhole.collaborators file))
    (i j : nat) (p : @Person (Pinhole.collaborators file))
    (bp : @BodyPart (Pinhole.collaborators file)) :
  Published f ∈ output_of (workConsumer (Some (datum0 :: rest))) s ->
  persons f !! i = Some p ->
  bodyParts p !! j = Some bp ->
  let K := Pinhole.intrinsics (camera (world s)) in
  let x : Q := pixel_x (pixel bp) in
  let y : Q := pixel_y (pixel bp) in
  let depth := Pinhole.depthImage (camera (world s)) x y in
  let point3D : Q * Q * Q :=
    (point_x (point bp), point_y (point bp), point_z (point bp)) in
  point3D = Pinhole.deproject K x y depth /\
  (~ (Pinhole.fx K == 0)%Q -> ~ (Pinhole.fy K == 0)%Q -> ~ (depth == 0)%Q ->
   ((Pinhole.project K point3D).1 == x)%Q /\ ((Pinhole.project K point3D).2 == y)%Q).
Proof.
  intros Hpub Hi Hj. simpl.
  destruct (published_inv _ _ _ _ Hpub) as (cam' & ps & Hcopy & Hps & ->).
  simpl in Hi.
  pose proof (keypoint_persons_lookup _ _ _ _ _ _ _ Hps Hi Hj) as Hbp.
  destruct (keypoint_bodyPart_inv _ _ _ _ _ Hbp) as (_ & _ & _ & Hpoint).
  simpl in Hcopy, Hpoint. unfold Pinhole.Reader_copyLatestDepthImage in Hcopy.
  injection Hcopy as <-. unfold Pinhole.Reader_compute3DPoint in Hpoint. simpl in Hpoint.
  injection Hpoint as Hx Hy Hz.
  assert (Heq : (point_x (point bp), point_y (point bp), point_z (point bp)) =
                Pinhole.deproject (Pinhole.intrinsics (camera (world s)))
                  (pixel_x (pixel bp)) (pixel_y (pixel bp))
                  (Pinhole.depthImage (camera (world s))
                     (pixel_x (pixel bp)) (pixel_y (pixel bp)))).
  { unfold Pinhole.deproject. by rewrite <- Hx, <- Hy, <- Hz. }
  split; [exact Heq|].
  intros Hfx Hfy Hd.
  pose proof (project_deproject _ (pixel_x (pixel bp)) (pixel_y (pixel bp)) _ Hfx Hfy Hd) as H.
  rewrite <- Heq in H. exact H.
Qed.

(** With the pinhole reader the depth copy left by an earlier invocation
    plays no part either: readers that agree on the latest images and on
    the intrinsics lead to the same published persons. *)
Lemma pinhole_stale_depth_copy_irrelevant (file : string)
    (datumsPtr : @sPtrVecSPtrDatum (Pinhole.collaborators file))
    (s1 s2 : @State (Pinhole.collaborators file) (@WUserOutput (Pinhole.collaborators file))) :
  Pinhole.colorImage (camera (world s1)) = Pinhole.colorImage (camera (world s2)) ->
  Pinhole.depthImage (camera (world s1)) = Pinhole.depthImage (camera (world s2)) ->
  Pinhole.intrinsics (camera (world s1)) = Pinhole.intrinsics (camera (world s2)) ->
  persons <$> published (output_of (workConsumer datumsPtr) s1) =
  persons <$> published (output_of (workConsumer datumsPtr) s2).
Proof.
  intros Hcolor Hdepth HK. destruct datumsPtr as [[|datum0 rest]|].
  - by rewrite !(output_of_nothing _ _ tt) by (apply workConsumer_skip; auto).
  - rewrite !workConsumer_output. unfold consumer_events. simpl.
    unfold Pinhole.Reader_copyLatestDepthImage. rewrite Hcolor, Hdepth, HK.
    destruct (keypoint_persons _ (poseKeypoints datum0)); reflexivity.
  - by rewrite !(output_of_nothing _ _ tt) by (apply workConsumer_skip; auto).
Qed.

(** ** The claims on the sample inputs *)

Lemma sample_frame_published :
  Published Samples.frame ∈
    output_of (workConsumer (Some [Samples.datum])) Samples.consumer.
Proof. vm_compute. apply list_elem_of_here. Qed.

Lemma published_frame_content_witness :
  Published Samples.frame ∈
    output_of (workConsumer (Some [Samples.datum])) Samples.consumer /\
  length (persons Samples.frame) = 1%nat.
Proof.
  split; [exact sample_frame_published|].
  exact (proj1 (published_frame_content Samples.datum [] Samples.consumer Samples.frame
                  sample_frame_published)).
Defined.

Lemma empty_frame_skipped_witness :
  workProducer Samples.dark_producer =
    (Normal None, add_events [Slept 1; empty_frame_warning] Samples.dark_producer) /\
  workConsumer None Samples.consumer = (Normal tt, Samples.consumer).
Proof.
  destruct (@empty_frame_skipped Samples.PC) as [Hproducer Hconsumer]. split.
  - apply (Hproducer Samples.dark_producer Samples.no_image); vm_compute; reflexivity.
  - apply (Hconsumer None Samples.consumer). left. reflexivity.
Defined.

Lemma producer_wraps_color_frame_witness :
  exists datum,
    (workProducer Samples.producer).1 = Normal (Some [datum]) /\
    cvInputData datum = Samples.color.
Proof.
  apply (producer_wraps_color_frame Samples.producer Samples.color);
    vm_compute; reflexivity.
Defined.

Lemma exception_caught_at_worker_boundary_witness :
  mIsRunning (workProducer Faults.broken_producer).2 = false /\
  mIsRunning (workConsumer (Some [Faults.faulty_datum]) Faults.broken_consumer).2 = false.
Proof.
  destruct (@exception_caught_at_worker_boundary Faults.FC) as [Hproducer Hconsumer].
  split.
  - apply (Hproducer Faults.broken_producer
             (add_events [Slept 1] Faults.broken_producer) Faults.failure).
    vm_compute. reflexivity.
  - apply (Hconsumer (Some [Faults.faulty_datum]) Faults.broken_consumer
             (mkState (mkWUserOutput (restamped Faults.broken_consumer)) true
                (world Faults.broken_consumer))
             Faults.failure).
    vm_compute. reflexivity.
Defined.

(** The claim "every invocation on a non-empty datum vector publishes
    exactly once" fails when the reader raises: the handler runs and
    nothing is published. *)
Lemma one_publish_per_invocation_counterexample :
  Some [Faults.faulty_datum] <> None /\
  Some [Faults.faulty_datum] <> Some [] /\
  length (published
            (output_of (workConsumer (Some [Faults.faulty_datum]))
               Faults.broken_consumer)) <> 1%nat.
Proof.
  split; [discriminate|]. split; [discriminate|].
  vm_compute. intros H. discriminate H.
Qed.


Lemma flat_index_equals_multi_index_witness :
  Array_at Samples.keypoints 3 = Array_at_indexes Samples.keypoints [0; 1; 0] /\
  Array_at Samples.keypoints 4 = Array_at_indexes Samples.keypoints [0; 1; 1] /\
  Array_at Samples.keypoints 5 = Array_at_indexes Samples.keypoints [0; 1; 2].
Proof.
  apply (flat_index_equals_multi_index Samples.keypoints 0 1). simpl. lia.
Defined.

Lemma model_dir_required_witness :
  (Main.main "rosOpenpose.cpp" ∅ (fun _ => None)).2 = Main.exit (-1) /\
  exists rest status,
    (Main.main "rosOpenpose.cpp" Samples.params (fun _ => None)).2 = Main.returns status /\
    Main.new_Wrapper ∈ (Main.main "rosOpenpose.cpp" Samples.params (fun _ => None)).1 /\
    rest = drop 14 (Main.main "rosOpenpose.cpp" Samples.params (fun _ => None)).1.
Proof.
  split.
  - destruct (model_dir_required "rosOpenpose.cpp" ∅ (fun _ => None)) as [Hmissing _].
    destruct Hmissing as [Hmain _]; [reflexivity|].
    rewrite Hmain. reflexivity.
  - destruct (model_dir_required "rosOpenpose.cpp" Samples.params (fun _ => None))
      as [_ Hgiven].
    destruct Hgiven as (_ & _ & Hproceeds); [discriminate|].
    destruct Hproceeds as (rest & status & Hmain); [reflexivity..|].
    exists rest, status. rewrite Hmain. simpl. split; [reflexivity|].
    split; [|reflexivity].
    do 13 apply list_elem_of_further. apply list_elem_of_here.
Defined.

Lemma keypoint_point_is_inverse_pinhole_witness :
  ((24 # 2)%Q, (32 # 2)%Q, 4%Q) = Pinhole.deproject Samples.K 7%Q 9%Q 4%Q /\
  ((Pinhole.project Samples.K ((24 # 2)%Q, (32 # 2)%Q, 4%Q)).1 == 7)%Q.
Proof.
  destruct (keypoint_point_is_inverse_pinhole "rosOpenpose.cpp" Samples.datum []
              Samples.consumer Samples.frame 0 1 Samples.person Samples.second_part
              sample_frame_published eq_refl eq_refl) as [Hpoint Hback].
  split; [exact Hpoint|].
  apply Hback; discriminate.
Defined.

(** * Further properties of the workers *)

(** ** Keypoint indexing stays inside the buffer *)

Lemma is_keypoint_array_inv {float} (kp : Array float) :
  is_keypoint_array kp = true ->
  mSize kp = [getSize kp 0; getSize kp 1; getSize kp 2] /\
  0 <= getSize kp 0 /\ 0 <= getSize kp 1 /\ 3 <= getSize kp 2 /\
  Z.of_nat (length (pData kp)) = getSize kp 0 * getSize kp 1 * getSize kp 2.
Proof.
  unfold is_keypoint_array, getSize.
  destruct (mSize kp) as [|P [|B [|C [|? ?]]]]; try discriminate. simpl.
  rewrite !andb_true_iff. intros [[[HP HB] HC] Hlen]. repeat split; lia.
Qed.

Lemma flat_index_range {float} (kp : Array float) (person bodyPart c : Z) :
  is_keypoint_array kp = true ->
  0 <= person < getSize kp 0 ->
  0 <= bodyPart < getSize kp 1 ->
  0 <= c < 3 ->
  0 <= baseIndex kp person bodyPart + c < Z.of_nat (length (pData kp)).
Proof.
  intros Hkp Hp Hb Hc.
  destruct (is_keypoint_array_inv kp Hkp) as (_ & HP & HB & HC & Hlen).
  unfold baseIndex. rewrite Hlen. split; [nia|].
  assert (person * getSize kp 1 + bodyPart + 1 <= getSize kp 0 * getSize kp 1) by nia.
  nia.
Qed.

Lemma Array_at_in_range {float} (kp : Array float) (index : Z) :
  0 <= index < Z.of_nat (length (pData kp)) ->
  exists v, Array_at kp index = Normal v.
Proof.
  intros Hrange. unfold Array_at.
  destruct (Z.leb_spec 0 index) as [_|]; [|lia].
  destruct (pData kp !! Z.to_nat index) as [v|] eqn:Hv; [by exists v|].
  apply lookup_ge_None in Hv. lia.
Qed.

(** The three reads of every keypoint of a keypoint array are in bounds. *)
Theorem keypoint_reads_in_bounds {float} (kp : Array float) (person bodyPart c : Z) :
  is_keypoint_array kp = true ->
  0 <= person < getSize kp 0 ->
  0 <= bodyPart < getSize kp 1 ->
  0 <= c < 3 ->
  0 <= baseIndex kp person bodyPart + c < Z.of_nat (length (pData kp)) /\
  exists v, Array_at kp (baseIndex kp person bodyPart + c) = Normal v.
Proof.
  intros Hkp Hp Hb Hc.
  pose proof (flat_index_range kp person bodyPart c Hkp Hp Hb Hc) as Hrange.
  split; [exact Hrange|]. by apply Array_at_in_range.
Qed.

(** Different keypoints are read from disjoint triples of the buffer. *)
Theorem keypoint_triples_disjoint {float} (kp : Array float)
    (person bodyPart person' bodyPart' : Z) :
  3 <= getSize kp 2 ->
  0 <= bodyPart < getSize kp 1 ->
  0 <= bodyPart' < getSize kp 1 ->
  (person, bodyPart) <> (person', bodyPart') ->
  baseIndex kp person bodyPart + 3 <= baseIndex kp person' bodyPart' \/
  baseIndex kp person' bodyPart' + 3 <= baseIndex kp person bodyPart.
Proof.
  intros HC Hb Hb' Hne. unfold baseIndex.
  assert (Hn : person * getSize kp 1 + bodyPart <> person' * getSize kp 1 + bodyPart').
  { intros Heq. apply Hne.
    assert (person = person') by nia. subst. f_equal. lia. }
  destruct (Z.lt_total (person * getSize kp 1 + bodyPart)
                       (person' * getSize kp 1 + bodyPart')) as [Hlt|[Heq|Hgt]];
    [left; nia | contradiction | right; nia].
Qed.

Lemma mapM_outcome_total {A B} (f : A -> outcome B) (l : list A) :
  (forall a, a ∈ l -> exists b, f a = Normal b) ->
  exists bs, mapM_outcome f l = Normal bs.
Proof.
  induction l as [|a l IH]; intros Hf; simpl; [by exists []|].
  destruct (Hf a (list_elem_of_here _ _)) as [b ->].
  destruct IH as [bs ->]; [|by exists (b :: bs)].
  intros a' Ha'. apply Hf. by apply list_elem_of_further.
Qed.

Section WorkerProperties.
Context {C : Collaborators}.

Lemma keypoint_persons_total (cam : CameraReader) (kp : Array float) :
  is_keypoint_array kp = true ->
  (forall x y, exists pt, compute3DPoint cam x y = Normal pt) ->
  exists ps, keypoint_persons cam kp = Normal ps.
Proof.
  intros Hkp Hcompute.
  destruct (is_keypoint_array_inv kp Hkp) as (_ & HP & HB & _ & _).
  unfold keypoint_persons.
  destruct (Z.ltb_spec (getSize kp 0) 0) as [|_]; [lia|].
  apply mapM_outcome_total. intros person Hperson.
  apply elem_of_seqZ in Hperson.
  unfold keypoint_person.
  destruct (Z.ltb_spec (getSize kp 1) 0) as [|_]; [lia|].
  destruct (mapM_outcome_total (keypoint_bodyPart cam kp person) (seqZ 0 (getSize kp 1)))
    as [bps ->]; [|by eexists].
  intros bodyPart HbodyPart. apply elem_of_seqZ in HbodyPart.
  unfold keypoint_bodyPart.
  destruct (Array_at_in_range kp _
              (flat_index_range kp person bodyPart 0 Hkp Hperson HbodyPart ltac:(lia)))
    as [x Hx].
  destruct (Array_at_in_range kp _
              (flat_index_range kp person bodyPart 1 Hkp Hperson HbodyPart ltac:(lia)))
    as [y Hy].
  destruct (Array_at_in_range kp _
              (flat_index_range kp person bodyPart 2 Hkp Hperson HbodyPart ltac:(lia)))
    as [sc Hsc].
  rewrite Z.add_0_r in Hx. rewrite Hx, Hy, Hsc.
  destruct (Hcompute x y) as [pt ->]. by eexists.
Qed.

(** On a keypoint array, with a reader whose depth copy and projection do
    not raise, the consumer publishes one frame and keeps running: its own
    index arithmetic never leaves the buffer. *)
Theorem consumer_publishes_on_keypoint_array (datum0 : Datum) (rest : list Datum)
    (s : State WUserOutput) (cam' : CameraReader) :
  is_keypoint_array (poseKeypoints datum0) = true ->
  copyLatestDepthImage (camera (world s)) = Normal cam' ->
  (forall x y, exists pt, compute3DPoint cam' x y = Normal pt) ->
  exists f,
    workConsumer (Some (datum0 :: rest)) s =
    (Normal tt,
     mkState (mkWUserOutput f) (mIsRunning s)
       (mkWorld cam' (clock (world s)) (events (world s) ++ [Published f]))).
Proof.
  intros Hkp Hcopy Hcompute.
  destruct (keypoint_persons_total cam' _ Hkp Hcompute) as [ps Hps].
  pose proof (workConsumer_try_spec datum0 rest s) as H.
  rewrite Hcopy, Hps in H.
  exists (set_persons ps (restamped s)). by apply workConsumer_passed.
Qed.

End WorkerProperties.

Section WorkerEffects.
Context {C : Collaborators}.

(** A published frame is the frame the consumer now stores; it bears the
    clock reading of the invocation and the sequence number and frame id
    stored before, and the worker's running flag is untouched. *)
Theorem published_frame_is_stored_and_stamped (datum0 : Datum) (rest : list Datum)
    (s : State WUserOutput) (f : Frame) :
  Published f ∈ output_of (workConsumer (Some (datum0 :: rest))) s ->
  let s' := (workConsumer (Some (datum0 :: rest)) s).2 in
  mFrame (this s') = f /\
  stamp (header f) = clock (world s) /\
  seq (header f) = seq (header (mFrame (this s))) /\
  frame_id (header f) = frame_id (header (mFrame (this s))) /\
  mIsRunning s' = mIsRunning s.
Proof.
  intros Hpub. simpl.
  destruct (published_inv _ _ _ _ Hpub) as (cam' & ps & Hcopy & Hps & ->).
  pose proof (workConsumer_try_spec datum0 rest s) as H.
  rewrite Hcopy, Hps in H. rewrite (workConsumer_passed _ _ _ H). simpl.
  repeat split.
Qed.

(** With no person detected (a keypoint array whose first dimension reads
    0, the empty array included), the consumer still publishes: a frame
    with the new stamp and no persons, without asking for any 3D point. *)
Theorem no_person_publishes_empty_frame (datum0 : Datum) (rest : list Datum)
    (s : State WUserOutput) (cam' : CameraReader) :
  getSize (poseKeypoints datum0) 0 = 0 ->
  copyLatestDepthImage (camera (world s)) = Normal cam' ->
  output_of (workConsumer (Some (datum0 :: rest))) s = [Published (restamped s)] /\
  persons (restamped s) = [] /\
  mIsRunning (workConsumer (Some (datum0 :: rest)) s).2 = mIsRunning s.
Proof.
  intros Hnone Hcopy.
  assert (Hps : keypoint_persons cam' (poseKeypoints datum0) = Normal []).
  { unfold keypoint_persons. rewrite Hnone. reflexivity. }
  pose proof (workConsumer_try_spec datum0 rest s) as H.
  rewrite Hcopy, Hps in H.
  rewrite workConsumer_output. unfold consumer_events. rewrite Hcopy, Hps.
  rewrite (workConsumer_passed _ _ _ H).
  split; [|split]; [|reflexivity..].
  destruct s as [[[h ps0]] r w]. reflexivity.
Qed.

(** An invocation on a non-empty vector always restamps the stored frame,
    also when it fails; when the depth copy raises, the stored frame has
    already lost its persons although nothing is published. *)
Theorem failed_invocation_still_alters_stored_frame (datum0 : Datum) (rest : list Datum)
    (s : State WUserOutput) :
  let s' := (workConsumer (Some (datum0 :: rest)) s).2 in
  stamp (header (mFrame (this s'))) = clock (world s) /\
  (forall e, copyLatestDepthImage (camera (world s)) = Raise e ->
     mFrame (this s') = restamped s /\
     persons (mFrame (this s')) = [] /\
     camera (world s') = camera (world s) /\
     published (output_of (workConsumer (Some (datum0 :: rest))) s) = []).
Proof.
  simpl. pose proof (workConsumer_try_spec datum0 rest s) as H.
  pose proof (workConsumer_output datum0 rest s) as Hout. unfold consumer_events in Hout.
  destruct (copyLatestDepthImage (camera (world s))) as [cam'|e0].
  - split; [|intros e He; discriminate].
    destruct (keypoint_persons cam' (poseKeypoints datum0)) as [ps|e1].
    + by rewrite (workConsumer_passed _ _ _ H).
    + destruct H as [ps' H]. by rewrite (workConsumer_caught _ _ _ _ H).
  - rewrite Hout. rewrite (workConsumer_caught _ _ _ _ H). simpl.
    split; [reflexivity|]. intros e _. repeat split.
Qed.

(** Only the keypoints of the first datum count: further datums of the
    vector and the other fields of the first are never read. *)
Theorem consumer_reads_first_keypoints_only (datum0 datum0' : Datum)
    (rest rest' : list Datum) (s : State WUserOutput) :
  poseKeypoints datum0 = poseKeypoints datum0' ->
  workConsumer (Some (datum0 :: rest)) s = workConsumer (Some (datum0' :: rest')) s.
Proof.
  intros Hkp. unfold workConsumer, try_catch, workConsumer_try. simpl.
  change (vector_at (datum0 :: rest) 0) with (Normal datum0).
  change (vector_at (datum0' :: rest') 0) with (Normal datum0').
  rewrite !bind_lift_Normal. rewrite Hkp. reflexivity.
Qed.

(** The producer publishes nothing and leaves reader and clock alone; it
    stops exactly when reading the color frame raises, and it returns the
    null pointer unless it got a non-empty image. *)
Theorem producer_effects (s : State WUserInput) :
  let s' := (workProducer s).2 in
  published (output_of workProducer s) = [] /\
  camera (world s') = camera (world s) /\
  clock (world s') = clock (world s) /\
  mIsRunning s' =
    match getColorFrame (camera (world s)) with
    | Normal _ => mIsRunning s
    | Raise _ => false
    end /\
  ((workProducer s).1 = Normal None <->
   forall colorImage,
     getColorFrame (camera (world s)) = Normal colorImage -> Mat_empty colorImage = true).
Proof.
  simpl. unfold workProducer, try_catch, output_of.
  rewrite workProducer_try_spec.
  destruct s as [o r [cam t evs]]. simpl.
  destruct (getColorFrame cam) as [img|e]; simpl.
  - destruct (Mat_empty img) eqn:Hempty; simpl.
    + rewrite drop_app_length. do 4 (split; [reflexivity|]). split; [|reflexivity].
      intros _ colorImage Himg. by injection Himg as <-.
    + rewrite drop_app_length. do 4 (split; [reflexivity|]). split; [discriminate|].
      intros Hall. specialize (Hall img eq_refl). congruence.
  - rewrite <- app_assoc, drop_app_length. do 4 (split; [reflexivity|]).
    split; [discriminate | reflexivity].
Qed.

End WorkerEffects.

(** * Further properties of main *)

Section MainProperties.
Variable FILE : string.
Variable params : gmap string string.
Variable raises : Main.Call -> option exception.

Ltac run_main :=
  unfold Main.main;
  rewrite bool_decide_eq_false_2 by assumption;
  unfold Main.main_try, Main.main_catch, Main.configureOpenPose, Main.log_error,
    Main.call, try_catch, bind, modify, ret.

(** The three calls between the check and the [try] block. *)
Ltac outside_try tac :=
  destruct (raises Main.ParseCommandLineFlags); [tac|];
  destruct (raises (Main.new_CameraReader _ _ _)); [tac|];
  destruct (raises (Main.advertise _ _)); [tac|].

(** The calls of the [try] block. *)
Ltac inside_try tac :=
  destruct (raises Main.new_Wrapper); [tac|];
  destruct (raises (Main.Wrapper_configure _));
    (destruct (raises Main.Wrapper_start); [tac|]);
    (destruct (raises Main.ros_spin); [tac|]);
    (destruct (raises Main.Wrapper_stop); tac).

(** How a start-up that passed the model-directory check ends. An
    exception from parsing the flags, from the reader constructor or from
    [advertise] is caught by nobody and ends the process. Otherwise the
    status is 0 when the wrapper was constructed, started, spun and
    stopped, the last call being the stop, and -1 when one of these four
    raised, the last call then being the error statement of [main] for
    that exception. What happens inside [configureOpenPose] does not
    change the status. *)
Theorem main_exit_status :
  Main.getParam_string params "openpose_model_dir" <> "" ->
  let outside_failure :=
    match raises Main.ParseCommandLineFlags with
    | Some e => Some e
    | None =>
        match raises (Main.new_CameraReader
                        (Main.getParam_string params "color_topic")
                        (Main.getParam_string params "depth_topic")
                        (Main.getParam_string params "cam_info_topic")) with
        | Some e => Some e
        | None => raises (Main.advertise (Main.getParam_string params "pub_topic") 1)
        end
    end in
  let first_failure :=
    match raises Main.new_Wrapper with
    | Some e => Some e
    | None =>
        match raises Main.Wrapper_start with
        | Some e => Some e
        | None =>
            match raises Main.ros_spin with
            | Some e => Some e
            | None => raises Main.Wrapper_stop
            end
        end
    end in
  match outside_failure with
  | Some e =>
      (Main.main FILE params raises).2 = Main.uncaught e /\
      existsb (fun c => match c with Main.ROS_ERROR _ _ => true | _ => false end)
        (Main.main FILE params raises).1 = false
  | None =>
      match first_failure with
      | None =>
          (Main.main FILE params raises).2 = Main.returns 0 /\
          last (Main.main FILE params raises).1 = Some Main.Wrapper_stop
      | Some e =>
          (Main.main FILE params raises).2 = Main.returns (-1) /\
          last (Main.main FILE params raises).1 =
            Some (Main.ROS_ERROR "Error %s at line number %d on function %s in file %s"
                    [inl (what e); inr 409; inl "main"; inl FILE])
      end
  end.
Proof.
  intros Hdir. simpl. run_main.
  outside_try ltac:(by split).
  inside_try ltac:(by split).
Qed.

(** A failure while configuring the wrapper is logged by
    [configureOpenPose] and goes no further: once the reader, the
    publisher and the wrapper are constructed, [main] starts the wrapper
    all the same. *)
Theorem configure_failure_does_not_stop_startup (e : exception) :
  Main.getParam_string params "openpose_model_dir" <> "" ->
  raises Main.ParseCommandLineFlags = None ->
  raises (Main.new_CameraReader
            (Main.getParam_string params "color_topic")
            (Main.getParam_string params "depth_topic")
            (Main.getParam_string params "cam_info_topic")) = None ->
  raises (Main.advertise (Main.getParam_string params "pub_topic") 1) = None ->
  raises Main.new_Wrapper = None ->
  raises (Main.Wrapper_configure (Main.getParam_string params "frame_id")) = Some e ->
  exists before after,
    (Main.main FILE params raises).1 =
    before ++
    [Main.Wrapper_configure (Main.getParam_string params "frame_id");
     Main.ROS_ERROR "Error %s at line number %d on function %s in file %s"
       [inl (what e); inr 351; inl "configureOpenPose"; inl FILE];
     Main.Wrapper_start] ++ after.
Proof.
  intros Hdir Hparse Hreader Hadvertise Hnew Hconf. run_main.
  rewrite Hparse, Hreader, Hadvertise, Hnew, Hconf.
  eexists (_ :: _ :: _ :: _ :: _ :: _ :: _ :: _ :: _ :: _ :: _ :: _ :: _ :: [_]).
  destruct (raises Main.Wrapper_start); [eexists; simpl; reflexivity|].
  destruct (raises Main.ros_spin); [eexists; simpl; reflexivity|].
  destruct (raises Main.Wrapper_stop); eexists; simpl; reflexivity.
Qed.

Ltac find_member :=
  simpl; repeat (first [apply list_elem_of_here | apply list_elem_of_further]).

Ltac refute_member H :=
  simpl in H; repeat (apply elem_of_cons in H as [H|H]; [discriminate H|]);
  by apply elem_of_nil in H.

Ltac decide_membership :=
  split;
  [ intros H; first [ by repeat split | refute_member H ]
  | intros H; first [ by find_member | by decompose [and] H ] ].

(** The wrapper is stopped only at the end of a run that went well: the
    stop is called exactly when no call from the flag parsing to the spin
    raised, and the spin exactly when no call from the flag parsing to the
    start did. *)
Theorem wrapper_stop_only_after_spin :
  Main.getParam_string params "openpose_model_dir" <> "" ->
  let constructed :=
    raises Main.ParseCommandLineFlags = None /\
    raises (Main.new_CameraReader
              (Main.getParam_string params "color_topic")
              (Main.getParam_string params "depth_topic")
              (Main.getParam_string params "cam_info_topic")) = None /\
    raises (Main.advertise (Main.getParam_string params "pub_topic") 1) = None /\
    raises Main.new_Wrapper = None in
  (Main.Wrapper_stop ∈ (Main.main FILE params raises).1 <->
   constructed /\ raises Main.Wrapper_start = None /\ raises Main.ros_spin = None) /\
  (Main.ros_spin ∈ (Main.main FILE params raises).1 <->
   constructed /\ raises Main.Wrapper_start = None).
Proof.
  intros Hdir. simpl. run_main.
  outside_try ltac:(split; decide_membership).
  inside_try ltac:(split; decide_membership).
Qed.

(** Only the model directory is checked: a topic name or frame id that is
    not set is passed on as the empty string, to the reader constructor
    when the flag parsing returns, to [advertise] when the reader
    constructor returns too, and to [configureOpenPose] when the publisher
    and the wrapper are constructed. *)
Theorem missing_parameters_are_passed_on_empty :
  Main.getParam_string params "openpose_model_dir" <> "" ->
  raises Main.ParseCommandLineFlags = None ->
  (params !! "color_topic" = None -> params !! "depth_topic" = None ->
   params !! "cam_info_topic" = None ->
   Main.new_CameraReader "" "" "" ∈ (Main.main FILE params raises).1) /\
  (params !! "pub_topic" = None ->
   raises (Main.new_CameraReader
             (Main.getParam_string params "color_topic")
             (Main.getParam_string params "depth_topic")
             (Main.getParam_string params "cam_info_topic")) = None ->
   Main.advertise "" 1 ∈ (Main.main FILE params raises).1) /\
  (params !! "frame_id" = None ->
   raises (Main.new_CameraReader
             (Main.getParam_string params "color_topic")
             (Main.getParam_string params "depth_topic")
             (Main.getParam_string params "cam_info_topic")) = None ->
   raises (Main.advertise (Main.getParam_string params "pub_topic") 1) = None ->
   raises Main.new_Wrapper = None ->
   Main.Wrapper_configure "" ∈ (Main.main FILE params raises).1).
Proof.
  intros Hdir Hparse. run_main. rewrite Hparse. unfold Main.getParam_string.
  split; [|split].
  - intros -> -> ->. simpl.
    destruct (raises (Main.new_CameraReader _ _ _)); [find_member|].
    destruct (raises (Main.advertise _ _)); [find_member|].
    inside_try ltac:(find_member).
  - intros -> ->. simpl.
    destruct (raises (Main.advertise _ _)); [find_member|].
    inside_try ltac:(find_member).
  - intros -> -> -> ->. simpl.
    destruct (raises (Main.Wrapper_configure _));
      (destruct (raises Main.Wrapper_start); [find_member|]);
      (destruct (raises Main.ros_spin); [find_member|]);
      (destruct (raises Main.Wrapper_stop); find_member).
Qed.

End MainProperties.

(** * Properties of configureOpenPose *)

Section ConfigureProperties.
Variable FILE : string.
Variable error_text : string -> Z -> string -> string -> string.
Variable flags : Configure.Flags.
Variable raises : Configure.Step -> option exception.

Lemma run_then_cons (st : Configure.Step) (l : list Configure.Step)
    (k : M (list Configure.Step) unit) (trace : list Configure.Step) :
  Configure.run_then raises (st :: l) k trace =
  match Configure.raising raises st with
  | Some e => (Raise e, trace ++ [st])
  | None => Configure.run_then raises l k (trace ++ [st])
  end.
Proof.
  simpl. unfold bind, Configure.step.
  destruct (Configure.raising raises st); reflexivity.
Qed.

Lemma run_then_all_pass (l : list Configure.Step) (k : M (list Configure.Step) unit) :
  forall trace,
    (forall st, st ∈ l -> Configure.raising raises st = None) ->
    Configure.run_then raises l k trace = k (trace ++ l).
Proof.
  induction l as [|st l IH]; intros trace Hpass.
  - simpl. by rewrite app_nil_r.
  - rewrite run_then_cons, (Hpass st) by apply list_elem_of_here.
    rewrite IH by (intros x Hx; apply Hpass; by apply list_elem_of_further).
    by rewrite <- app_assoc.
Qed.

Lemma run_then_stops (done rest : list Configure.Step) (st : Configure.Step)
    (e : exception) (k : M (list Configure.Step) unit) (trace : list Configure.Step) :
  (forall x, x ∈ done -> Configure.raising raises x = None) ->
  Configure.raising raises st = Some e ->
  Configure.run_then raises (done ++ st :: rest) k trace =
  (Raise e, trace ++ done ++ [st]).
Proof.
  revert trace. induction done as [|x done IH]; intros trace Hpass Hst.
  - simpl app at 1. by rewrite run_then_cons, Hst.
  - simpl app at 1. rewrite run_then_cons, (Hpass x) by apply list_elem_of_here.
    rewrite IH by (try done; intros y Hy; apply Hpass; by apply list_elem_of_further).
    by rewrite <- app_assoc.
Qed.

Lemma first_raising (l : list Configure.Step) :
  (forall st, st ∈ l -> Configure.raising raises st = None) \/
  exists done st rest e,
    l = done ++ st :: rest /\
    (forall x, x ∈ done -> Configure.raising raises x = None) /\
    Configure.raising raises st = Some e.
Proof.
  induction l as [|st l IH].
  - left. intros st Hst. by apply elem_of_nil in Hst.
  - destruct (Configure.raising raises st) as [e|] eqn:Hst.
    + right. exists [], st, l, e. split; [done|]. split; [|done].
      intros x Hx. by apply elem_of_nil in Hx.
    + destruct IH as [Hpass | (done & st' & rest & e & -> & Hpass & Hst')].
      * left. intros x Hx. apply elem_of_cons in Hx as [->|Hx]; auto.
      * right. exists (st :: done), st', rest, e. split; [done|]. split; [|done].
        intros x Hx. apply elem_of_cons in Hx as [->|Hx]; auto.
Qed.

Lemma run_then_snoc (l : list Configure.Step) (st : Configure.Step) :
  forall trace,
    Configure.run_then raises (l ++ [st]) (ret tt) trace =
    Configure.run_then raises l (Configure.step raises st) trace.
Proof.
  induction l as [|x l IH]; intros trace.
  - simpl. unfold bind. destruct (Configure.step raises st trace) as [[[]|e] tr]; reflexivity.
  - simpl app. rewrite !run_then_cons.
    destruct (Configure.raising raises x); [reflexivity | apply IH].
Qed.

(** With a logging level in range, the [try] block is the run of the plan. *)
Lemma configureOpenPose_try_runs_plan (frameId : string) (trace : list Configure.Step) :
  Configure.logging_level_ok flags = true ->
  Configure.configureOpenPose_try FILE error_text flags raises frameId trace =
  Configure.run_then raises (Configure.plan flags frameId) (ret tt) trace.
Proof.
  unfold Configure.logging_level_ok. intros Hok.
  unfold Configure.configureOpenPose_try, Configure.plan, Configure.check.
  rewrite Hok.
  destruct (Configure.FLAGS_disable_multi_thread flags).
  - rewrite !app_assoc, run_then_snoc.
    destruct (bool_decide (Configure.FLAGS_write_keypoint flags = "")); reflexivity.
  - rewrite !app_nil_r.
    destruct (bool_decide (Configure.FLAGS_write_keypoint flags = "")); reflexivity.
Qed.

Lemma configure_run_cases (frameId : string) (trace : list Configure.Step) :
  Configure.logging_level_ok flags = true ->
  (forall st, st ∈ Configure.plan flags frameId -> Configure.raising raises st = None) /\
  Configure.configureOpenPose FILE error_text flags raises frameId trace =
    (Normal tt, trace ++ Configure.plan flags frameId)
  \/
  exists done st rest e,
    Configure.plan flags frameId = done ++ st :: rest /\
    (forall x, x ∈ done -> Configure.raising raises x = None) /\
    Configure.raising raises st = Some e /\
    Configure.configureOpenPose FILE error_text flags raises frameId trace =
      (Normal tt, trace ++ done ++ [st; Configure.configure_error FILE e]).
Proof.
  intros Hok. unfold Configure.configureOpenPose, try_catch.
  rewrite configureOpenPose_try_runs_plan by assumption.
  destruct (first_raising (Configure.plan flags frameId))
    as [Hpass | (done & st & rest & e & Hplan & Hpass & Hst)].
  - left. split; [exact Hpass|]. by rewrite run_then_all_pass.
  - right. exists done, st, rest, e.
    split; [exact Hplan|]. split; [exact Hpass|]. split; [exact Hst|].
    rewrite Hplan, (run_then_stops done rest st e) by assumption.
    unfold Configure.configureOpenPose_catch, Configure.step. simpl.
    by rewrite <- !app_assoc.
Qed.

(** [configureOpenPose] always returns normally. With a logging level in
    range it performs the plan from its first step up to the first step
    that raises: either the whole plan and nothing else, or the steps up
    to and including the raising one followed by one error statement that
    reports its exception. No later step is attempted. *)
Theorem configureOpenPose_performs_a_prefix (frameId : string)
    (trace : list Configure.Step) :
  Configure.logging_level_ok flags = true ->
  let run := Configure.configureOpenPose FILE error_text flags raises frameId trace in
  run.1 = Normal tt /\
  ((forall st, st ∈ Configure.plan flags frameId -> Configure.raising raises st = None) /\
   run.2 = trace ++ Configure.plan flags frameId
   \/
   exists done st rest e,
     Configure.plan flags frameId = done ++ st :: rest /\
     (forall x, x ∈ done -> Configure.raising raises x = None) /\
     Configure.raising raises st = Some e /\
     run.2 = trace ++ done ++ [st; Configure.configure_error FILE e]).
Proof.
  intros Hok. simpl.
  destruct (configure_run_cases frameId trace Hok)
    as [[Hpass Hrun] | (done & st & rest & e & Hplan & Hpass & Hst & Hrun)];
    rewrite Hrun; simpl; (split; [reflexivity|]).
  - by left.
  - right. by exists done, st, rest, e.
Qed.

(** A logging level outside 0..255 fails the first check: nothing is
    configured, no worker is installed; the error is logged and the
    function returns normally. *)
Theorem wrong_logging_level_configures_nothing (frameId : string)
    (trace : list Configure.Step) :
  Configure.logging_level_ok flags = false ->
  Configure.configureOpenPose FILE error_text flags raises frameId trace =
  (Normal tt,
   trace ++
   [Configure.configure_error FILE
      (StdException
         (error_text "Wrong logging_level value." 189 "configureOpenPose" FILE))]).
Proof.
  unfold Configure.logging_level_ok. intros Hbad.
  unfold Configure.configureOpenPose, try_catch, Configure.configureOpenPose_try,
    Configure.check.
  rewrite Hbad. reflexivity.
Qed.

End ConfigureProperties.

Section ConfigureOrder.
Variable FILE : string.
Variable error_text : string -> Z -> string -> string -> string.
Variable flags : Configure.Flags.
Variable raises : Configure.Step -> option exception.

Lemma take_through {A} (done rest : list A) (st : A) :
  take (S (length done)) (done ++ st :: rest) = done ++ [st].
Proof. induction done as [|x done IH]; simpl; [by rewrite take_0 | by rewrite IH]. Qed.

(** The steps performed are an initial segment of the plan, followed by at
    most one error statement. *)
Lemma performed_steps (frameId : string) (trace : list Configure.Step) :
  Configure.logging_level_ok flags = true ->
  exists n errors,
    drop (length trace)
      (Configure.configureOpenPose FILE error_text flags raises frameId trace).2 =
    take n (Configure.plan flags frameId) ++ errors /\
    (errors = [] \/ exists e, errors = [Configure.configure_error FILE e]).
Proof.
  intros Hok.
  destruct (configure_run_cases FILE error_text flags raises frameId trace Hok)
    as [[_ Hrun] | (done & st & rest & e & Hplan & _ & _ & Hrun)];
    rewrite Hrun; simpl; rewrite drop_app_length.
  - exists (length (Configure.plan flags frameId)), []. rewrite firstn_all, app_nil_r. auto.
  - exists (S (length done)), [Configure.configure_error FILE e].
    rewrite Hplan, take_through. rewrite <- app_assoc. split; [reflexivity|]. eauto.
Qed.

Ltac find_member :=
  simpl; repeat (first [apply list_elem_of_here | apply list_elem_of_further]).

Ltac settle H :=
  simpl in H;
  repeat (apply elem_of_cons in H as [H|H];
          [first [discriminate H | by find_member | by (split; find_member)]|]);
  by apply elem_of_nil in H.

(** The output worker is never installed without the input worker; no
    part of the wrapper is configured before both workers are installed;
    and no worker is installed when the logging level is out of range. *)
Theorem workers_installed_in_order (frameId : string) (trace : list Configure.Step) :
  let performed :=
    drop (length trace)
      (Configure.configureOpenPose FILE error_text flags raises frameId trace).2 in
  (Configure.setWorker Configure.Output true ∈ performed ->
   Configure.setWorker Configure.Input true ∈ performed) /\
  (forall which, Configure.configure which ∈ performed ->
     Configure.setWorker Configure.Input true ∈ performed /\
     Configure.setWorker Configure.Output true ∈ performed) /\
  (Configure.setWorker Configure.Input true ∈ performed ->
   Configure.logging_level_ok flags = true).
Proof.
  simpl. destruct (Configure.logging_level_ok flags) eqn:Hok.
  - destruct (performed_steps frameId trace Hok) as (n & errors & -> & Herrors).
    assert (Hsteps : forall st, Configure.is_log st = false ->
              st ∈ take n (Configure.plan flags frameId) ++ errors <->
              st ∈ take n (Configure.plan flags frameId)).
    { intros st Hst. rewrite elem_of_app. split; [|by left].
      intros [H|H]; [done|].
      destruct Herrors as [-> | [e ->]]; [by apply elem_of_nil in H|].
      apply list_elem_of_singleton in H. subst st. discriminate Hst. }
    rewrite !Hsteps by reflexivity.
    split; [|split; [|done]].
    + unfold Configure.plan.
      destruct (bool_decide (Configure.FLAGS_write_keypoint flags = "")),
        (Configure.FLAGS_disable_multi_thread flags);
        do 31 (destruct n as [|n]; [intros H; settle H|]); intros H; settle H.
    + intros which. rewrite !Hsteps by reflexivity. unfold Configure.plan.
      destruct (bool_decide (Configure.FLAGS_write_keypoint flags = "")),
        (Configure.FLAGS_disable_multi_thread flags);
        do 31 (destruct n as [|n]; [intros H; settle H|]); intros H; settle H.
  - unfold Configure.configureOpenPose, try_catch, Configure.configureOpenPose_try,
      Configure.check.
    unfold Configure.logging_level_ok in Hok. rewrite Hok.
    simpl. rewrite drop_app_length.
    split; [|split]; [intros H; settle H | intros which H; settle H | intros H; settle H].
Qed.

End ConfigureOrder.

(** * The further properties on the sample inputs *)

Lemma keypoint_reads_in_bounds_witness :
  exists v, Array_at Samples.keypoints (baseIndex Samples.keypoints 0 1 + 2) = Normal v.
Proof.
  apply (keypoint_reads_in_bounds Samples.keypoints 0 1 2);
    [reflexivity | | | lia]; unfold getSize, Samples.keypoints; simpl; lia.
Defined.

Lemma keypoint_triples_disjoint_witness :
  baseIndex Samples.keypoints 0 0 + 3 <= baseIndex Samples.keypoints 0 1 \/
  baseIndex Samples.keypoints 0 1 + 3 <= baseIndex Samples.keypoints 0 0.
Proof.
  apply (keypoint_triples_disjoint Samples.keypoints 0 0 0 1);
    [| | | discriminate]; unfold getSize, Samples.keypoints; simpl; lia.
Defined.

Lemma consumer_publishes_on_keypoint_array_witness :
  exists f,
    workConsumer (Some [Samples.datum]) Samples.consumer =
    (Normal tt,
     mkState (mkWUserOutput f) true
       (mkWorld MoreSamples.fresh_reader (mkTime 10 0) ([] ++ [Published f]))).
Proof.
  apply (consumer_publishes_on_keypoint_array Samples.datum [] Samples.consumer
           MoreSamples.fresh_reader);
    [reflexivity | reflexivity | intros x y; eexists; reflexivity].
Defined.

Lemma published_frame_is_stored_and_stamped_witness :
  mFrame (this (workConsumer (Some [Samples.datum]) Samples.consumer).2) = Samples.frame /\
  stamp (header Samples.frame) = mkTime 10 0.
Proof.
  destruct (published_frame_is_stored_and_stamped Samples.datum [] Samples.consumer
              Samples.frame sample_frame_published) as (Hstored & Hstamp & _).
  split; [exact Hstored | exact Hstamp].
Defined.

Lemma no_person_publishes_empty_frame_witness :
  output_of (workConsumer (Some [MoreSamples.empty_datum])) Samples.consumer =
    [Published (restamped Samples.consumer)] /\
  persons (restamped Samples.consumer) = [].
Proof.
  destruct (no_person_publishes_empty_frame MoreSamples.empty_datum [] Samples.consumer
              MoreSamples.fresh_reader eq_refl eq_refl) as (Hout & Hnone & _).
  split; [exact Hout | exact Hnone].
Defined.

Lemma failed_invocation_still_alters_stored_frame_witness :
  mFrame (this (workConsumer (Some [Faults.faulty_datum]) Faults.broken_consumer).2) =
    restamped Faults.broken_consumer /\
  published (output_of (workConsumer (Some [Faults.faulty_datum])) Faults.broken_consumer) = [].
Proof.
  destruct (failed_invocation_still_alters_stored_frame Faults.faulty_datum []
              Faults.broken_consumer) as [_ Hfailed].
  destruct (Hfailed Faults.failure eq_refl) as (Hframe & _ & _ & Hnone).
  split; [exact Hframe | exact Hnone].
Defined.

Lemma consumer_reads_first_keypoints_only_witness :
  workConsumer (Some [Samples.datum]) Samples.consumer =
  workConsumer (Some [MoreSamples.other_datum; MoreSamples.empty_datum]) Samples.consumer.
Proof.
  apply (consumer_reads_first_keypoints_only Samples.datum MoreSamples.other_datum
           [] [MoreSamples.empty_datum] Samples.consumer).
  reflexivity.
Defined.

Lemma samples_model_dir_set :
  Main.getParam_string Samples.params "openpose_model_dir" <> "".
Proof. vm_compute. discriminate. Qed.

Lemma main_exit_status_witness :
  (Main.main "rosOpenpose.cpp" Samples.params MoreSamples.start_fails).2 =
    Main.returns (-1) /\
  last (Main.main "rosOpenpose.cpp" Samples.params MoreSamples.start_fails).1 =
    Some (Main.ROS_ERROR "Error %s at line number %d on function %s in file %s"
            [inl "Invalid render mode"; inr 409; inl "main"; inl "rosOpenpose.cpp"]).
Proof.
  exact (main_exit_status "rosOpenpose.cpp" Samples.params MoreSamples.start_fails
           samples_model_dir_set).
Defined.

Lemma configure_failure_does_not_stop_startup_witness :
  exists before after,
    (Main.main "rosOpenpose.cpp" Samples.params MoreSamples.configuration_fails).1 =
    before ++
    [Main.Wrapper_configure "";
     Main.ROS_ERROR "Error %s at line number %d on function %s in file %s"
       [inl "Invalid render mode"; inr 351; inl "configureOpenPose"; inl "rosOpenpose.cpp"];
     Main.Wrapper_start] ++ after.
Proof.
  exact (configure_failure_does_not_stop_startup "rosOpenpose.cpp" Samples.params
           MoreSamples.configuration_fails MoreSamples.failure
           samples_model_dir_set eq_refl eq_refl eq_refl eq_refl eq_refl).
Defined.

Lemma wrapper_stop_only_after_spin_witness :
  Main.Wrapper_stop ∈ (Main.main "rosOpenpose.cpp" Samples.params (fun _ => None)).1 /\
  ~ Main.ros_spin ∈ (Main.main "rosOpenpose.cpp" Samples.params MoreSamples.start_fails).1.
Proof.
  split.
  - apply (wrapper_stop_only_after_spin "rosOpenpose.cpp" Samples.params (fun _ => None)
             samples_model_dir_set).
    repeat split.
  - intros Hspin.
    apply (wrapper_stop_only_after_spin "rosOpenpose.cpp" Samples.params
             MoreSamples.start_fails samples_model_dir_set) in Hspin.
    destruct Hspin as [_ Hstart]. discriminate Hstart.
Defined.

Lemma missing_parameters_are_passed_on_empty_witness :
  Main.new_CameraReader "" "" "" ∈
    (Main.main "rosOpenpose.cpp" Samples.params (fun _ => None)).1 /\
  Main.advertise "" 1 ∈ (Main.main "rosOpenpose.cpp" Samples.params (fun _ => None)).1.
Proof.
  destruct (missing_parameters_are_passed_on_empty "rosOpenpose.cpp" Samples.params
              (fun _ => None) samples_model_dir_set eq_refl) as (Hreader & Hpublisher & _).
  split; [apply Hreader | apply Hpublisher]; vm_compute; reflexivity.
Defined.

Lemma configureOpenPose_performs_a_prefix_witness :
  (Configure.configureOpenPose "rosOpenpose.cpp" MoreSamples.error_text MoreSamples.flags
     MoreSamples.pose_refused Samples.frameId []).1 = Normal tt.
Proof.
  exact (proj1 (configureOpenPose_performs_a_prefix "rosOpenpose.cpp"
                  MoreSamples.error_text MoreSamples.flags MoreSamples.pose_refused
                  Samples.frameId [] eq_refl)).
Defined.

Lemma wrong_logging_level_configures_nothing_witness :
  Configure.configureOpenPose "rosOpenpose.cpp" MoreSamples.error_text
    MoreSamples.wrong_flags MoreSamples.pose_refused Samples.frameId [] =
  (Normal tt,
   [Configure.configure_error "rosOpenpose.cpp"
      (StdException "Wrong logging_level value.")]).
Proof.
  exact (wrong_logging_level_configures_nothing "rosOpenpose.cpp" MoreSamples.error_text
           MoreSamples.wrong_flags MoreSamples.pose_refused Samples.frameId [] eq_refl).
Defined.

Lemma workers_installed_in_order_witness :
  ~ Configure.configure Configure.Gui ∈
      drop 0 (Configure.configureOpenPose "rosOpenpose.cpp" MoreSamples.error_text
                MoreSamples.wrong_flags MoreSamples.pose_refused Samples.frameId []).2.
Proof.
  intros Hgui.
  destruct (workers_installed_in_order "rosOpenpose.cpp" MoreSamples.error_text
              MoreSamples.wrong_flags MoreSamples.pose_refused Samples.frameId [])
    as (_ & Hconfigured & Hlevel).
  destruct (Hconfigured Configure.Gui Hgui) as [Hinput _].
  discriminate (Hlevel Hinput).
Defined.
